(** * Verification of the path abstraction, the notebook creation and
      the notebook view of the ipynb viewer plugin

    The development embeds
    - the path module ([getVaultRootPath], [inVault] and the class
      [JupyterAbstractPath] with its constructor, accessors, [append],
      [fromAbsolute] and [fromRelative]),
    - [createJupyterNotebook] of the plugin class in [main.ts], with the
      default file name, the settings, the command and the file menu
      that call it, and
    - the view of a notebook ([onLoadFile] and [convertIpynbToHTML]),
    and proves the properties the specification states about them,
    followed by further properties read off the code.

    JavaScript strings are modelled as [string]; the string methods the
    code calls ([startsWith], [endsWith], [substring], [length]) are
    written out in module [JS] with the clamping rules of the language.

    [normalizePath] belongs to the host API and not to the repository: it
    is a parameter of every function that reaches the constructor. Module
    [HostModel] gives two models of it, used as instances. In the same
    way the converter process, [join] and the HTML parser are parameters
    of the view. *)

From Stdlib Require Import ZArith Lia Bool Ascii String DecimalString DecimalNat.
From stdpp Require Import gmap strings.

#[local] Arguments String.append : simpl nomatch.
#[local] Open Scope Z_scope.

(** ** JavaScript string methods *)

Module JS.

(** [s.length] *)
Definition length (s : string) : Z := Z.of_nat (String.length s).

(** [s.startsWith(t)] *)
Definition startsWith (s t : string) : bool := String.prefix t s.

(** [s.endsWith(t)]: the last [t.length] characters of [s] are [t]. *)
Definition endsWith (s t : string) : bool :=
  (String.length t <=? String.length s)%nat
  && String.eqb
       (String.substring (String.length s - String.length t)
                         (String.length t) s) t.

(** An index argument of [substring] is clamped to [0 .. s.length]. *)
Definition clamp (s : string) (i : Z) : nat :=
  Z.to_nat (Z.min (Z.max i 0) (length s)).

(** [s.substring(start, end)]: both indices are clamped and swapped when
    [start > end]. *)
Definition substring (s : string) (start end_ : Z) : string :=
  let a := clamp s start in
  let b := clamp s end_ in
  String.substring (Nat.min a b) (Nat.max a b - Nat.min a b) s.

(** [s.substring(start)]: up to the end of the string. *)
Definition substring_from (s : string) (start : Z) : string :=
  substring s start (length s).

End JS.

(** ** Errors and results *)

(** The [throw new Error(...)] sites of the two source files, and the
    null that a cast to [string] lets through. *)
Inductive Error : Type :=
| InvalidEnvironment   (* getVaultRootPath: no FileSystemAdapter *)
| InvalidArgument      (* constructor: in vault, but no relative path *)
| AppendToFile         (* append: the receiver is a file *)
| OutsideVault         (* createJupyterNotebook: folder not in the vault *)
| NullRelativePath.    (* a null that an [as string] cast would let through *)

Definition message (e : Error) : string :=
  match e with
  | InvalidEnvironment =>
      "Invalid environment : Jupyter for Obsidian needs a FileSystemAdapter instance to work with absolute paths."
  | InvalidArgument =>
      "Invalid argument in JupyterAbstractPath constructor : `relative` must not be `null` if `isInVault` is set to `true`"
  | AppendToFile =>
      "Cannot append a path to a file, the instance must represent a folder."
  | OutsideVault =>
      "Creating a new notebook can only be done within the vault."
  | NullRelativePath => "null used as a path"
  end.

(** The specification's error kind "invalid operation": appending to a
    path that is not a directory, or constructing an in-vault value
    without a relative path. *)
Definition invalid_operation (e : Error) : bool :=
  match e with
  | InvalidArgument | AppendToFile => true
  | _ => false
  end.

Inductive Result (A : Type) : Type :=
| Ok (a : A)
| Throw (e : Error).
Arguments Ok {A} a.
Arguments Throw {A} e.

#[global] Instance Result_ret : MRet Result := fun A a => Ok a.
#[global] Instance Result_bind : MBind Result := fun A B f m =>
  match m with
  | Ok a => f a
  | Throw e => Throw e
  end.

(** ** The vault and its adapter *)

Inductive DataAdapter : Type :=
| FileSystemAdapter (basePath : string)
| OtherAdapter.

Record Vault : Type := { adapter : DataAdapter }.

Definition getVaultRootPath (vault : Vault) : Result string :=
  match adapter vault with
  | FileSystemAdapter basePath => Ok basePath
  | OtherAdapter => Throw InvalidEnvironment
  end.

(** ** The class [JupyterAbstractPath] *)

Record JupyterAbstractPath : Type := {
  absolutePath : string;
  relativePath : option string;
  isDirectory : bool;
  isInVault : bool
}.

(** The free function [inVault(path, vault, root = null)]. *)
Definition inVault (path : string + JupyterAbstractPath) (vault : Vault)
    (root : option string) : Result bool :=
  let path := match path with
              | inl s => s
              | inr p => absolutePath p
              end in
  match root with
  | None => r ← getVaultRootPath vault; mret (JS.startsWith path r)
  | Some root => mret (JS.startsWith path root)
  end.

(** Inside the class the name [inVault] becomes the method; the free
    function stays reachable under this name. *)
#[local] Abbreviation module_inVault := inVault (only parsing).

Module JupyterAbstractPath.
Section Host.

(** The host's [normalizePath], imported from the host API. *)
Variable normalizePath : string -> string.

Definition constructor (absolute : string) (relative : option string)
    (isFolder isInVault : bool) : Result JupyterAbstractPath :=
  (* Set the absolute path attribute *)
  let absolute := normalizePath absolute in
  let absolute :=
    if isFolder && negb (JS.endsWith absolute "/") then absolute +:+ "/"
    else if negb isFolder && JS.endsWith absolute "/"
         then JS.substring absolute 0 (JS.length absolute - 1)
         else absolute in
  (* Set the relative path attribute *)
  if negb isInVault then
    Ok {| absolutePath := absolute; relativePath := None;
          isDirectory := isFolder; isInVault := isInVault |}
  else
    match relative with
    | None => Throw InvalidArgument
    | Some relative =>
        let relative :=
          if isFolder && negb (JS.endsWith relative "/")
          then relative +:+ "/"
          else if negb isFolder && JS.endsWith relative "/"
               then JS.substring relative 0 (JS.length absolute - 1)
               else relative in
        Ok {| absolutePath := absolute; relativePath := Some relative;
              isDirectory := isFolder; isInVault := isInVault |}
    end.

Definition getAbsolutePath (this : JupyterAbstractPath) : string :=
  absolutePath this.

Definition getRelativePath (this : JupyterAbstractPath) : option string :=
  if negb (isInVault this) then None else relativePath this.

Definition isFolder (this : JupyterAbstractPath) : bool := isDirectory this.

Definition inVault (this : JupyterAbstractPath) : bool := isInVault this.

Definition append (this : JupyterAbstractPath) (relativePath_ : string)
    (isFolder_ : bool) : Result JupyterAbstractPath :=
  if negb (isFolder this) then Throw AppendToFile
  else
    let relativePath_ :=
      if JS.startsWith relativePath_ "/"
      then JS.substring_from relativePath_ 1
      else relativePath_ in
    constructor
      (absolutePath this +:+ relativePath_)
      (match relativePath this with
       | None => None
       | Some r => Some (r +:+ relativePath_)
       end)
      isFolder_
      (inVault this).

Definition fromAbsolute (absolute : string) (isFolder : bool)
    (vault : Vault) : Result JupyterAbstractPath :=
  vaultRoot ← getVaultRootPath vault;
  isInVault ← module_inVault (inl absolute) vault (Some vaultRoot);
  let relative :=
    if isInVault : bool
    then Some (JS.substring_from absolute (JS.length vaultRoot))
    else None in
  constructor absolute relative isFolder isInVault.

Definition fromRelative (relative : string) (isFolder : bool)
    (vault : Vault) : Result JupyterAbstractPath :=
  vaultRoot ← getVaultRootPath vault;
  let vaultRoot :=
    if negb (JS.endsWith vaultRoot "/") then vaultRoot +:+ "/"
    else vaultRoot in
  let relative :=
    if JS.startsWith relative "/" then JS.substring_from relative 1
    else relative in
  constructor (vaultRoot +:+ relative) (Some relative) isFolder true.

(** The values of the class: the fields are private, so every instance
    comes out of the constructor. *)
Definition constructed (x : JupyterAbstractPath) : Prop :=
  exists absolute relative isFolder isInVault,
    constructor absolute relative isFolder isInVault = Ok x.

End Host.
End JupyterAbstractPath.

(** ** Instances as objects

    A [JupyterAbstractPath] is a heap object: [new] allocates a fresh
    one and the constructor writes its four fields; [append] only reads
    the fields of [this] and returns the freshly allocated object. *)

Module Objects.
Section Host.

Variable normalizePath : string -> string.

Definition alloc (h : gmap nat JupyterAbstractPath)
    (o : JupyterAbstractPath) : nat * gmap nat JupyterAbstractPath :=
  let r := fresh (dom h) in (r, <[r := o]> h).

(** [new JupyterAbstractPath(absolute, relative, isFolder, isInVault)] *)
Definition new (absolute : string) (relative : option string)
    (isFolder isInVault : bool) (h : gmap nat JupyterAbstractPath)
    : Result (nat * gmap nat JupyterAbstractPath) :=
  o ← JupyterAbstractPath.constructor normalizePath
        absolute relative isFolder isInVault;
  mret (alloc h o).

(** [this.append(relativePath, isFolder)] on the object at [this];
    [None] when [this] is not an object of the heap. *)
Definition append (this : nat) (relativePath_ : string) (isFolder_ : bool)
    (h : gmap nat JupyterAbstractPath)
    : option (Result (nat * gmap nat JupyterAbstractPath)) :=
  x ← h !! this;
  Some (if negb (JupyterAbstractPath.isFolder x) then Throw AppendToFile
        else
          let relativePath_ :=
            if JS.startsWith relativePath_ "/"
            then JS.substring_from relativePath_ 1
            else relativePath_ in
          new (absolutePath x +:+ relativePath_)
              (match relativePath x with
               | None => None
               | Some r => Some (r +:+ relativePath_)
               end)
              isFolder_
              (JupyterAbstractPath.inVault x)
              h).

End Host.
End Objects.

(** ** The plugin: creating a notebook *)

Module IpynbViewer.

(** What [new Date()] is read for. [getMonth] counts from 0. *)
Record Date : Type := {
  getFullYear : nat;
  getMonth : nat;
  getDate : nat;
  getHours : nat;
  getMinutes : nat;
  getSeconds : nat
}.

(** [String(n)] for a natural number *)
Definition String_ (n : nat) : string :=
  NilZero.string_of_uint (Nat.to_uint n).

Fixpoint replicate_char (n : nat) (c : ascii) : string :=
  match n with
  | O => ""
  | S n => String c (replicate_char n c)
  end.

(** [s.padStart(targetLength, c)] for a padding string of one character *)
Definition padStart (s : string) (targetLength : nat) (c : ascii) : string :=
  replicate_char (targetLength - String.length s) c +:+ s.

Definition getDefaultNotebookFilename (now : Date) : string :=
  let year := String_ (getFullYear now) in
  let month := padStart (String_ (getMonth now + 1)) 2 "0" in
  let day := padStart (String_ (getDate now)) 2 "0" in
  let hours := padStart (String_ (getHours now)) 2 "0" in
  let minutes := padStart (String_ (getMinutes now)) 2 "0" in
  let seconds := padStart (String_ (getSeconds now)) 2 "0" in
  "Jupyter Notebook " +:+ year +:+ "-" +:+ month +:+ "-" +:+ day +:+ "-"
    +:+ hours +:+ "-" +:+ minutes +:+ "-" +:+ seconds +:+ ".ipynb".

(** The double quote character, and a quoted word. *)
Definition dq : string := String (ascii_of_nat 34) "".
Definition quoted (s : string) : string := dq +:+ s +:+ dq.

(** The document written for a new notebook. *)
Definition minimal_notebook : string :=
  "{" +:+ quoted "cells" +:+ ": []," +:+ quoted "metadata" +:+ ": {"
  +:+ quoted "kernelspec" +:+ ": {" +:+ quoted "display_name" +:+ ": "
  +:+ quoted "" +:+ "," +:+ quoted "name" +:+ ": " +:+ quoted "" +:+ "},"
  +:+ quoted "language_info" +:+ ": {" +:+ quoted "name" +:+ ": "
  +:+ quoted "" +:+ "}}," +:+ quoted "nbformat" +:+ ": 4,"
  +:+ quoted "nbformat_minor" +:+ ": 5}".

Definition exists_notice (path : string) : string :=
  "The file " +:+ quoted path
  +:+ " already exists, creation was aborted to avoid overwriting it. Please try again.".

(** The calls into the host. *)
Inductive HostCall : Type :=
| AdapterExists (path : string)
| NewNotice (text : string)
| AdapterWrite (path data : string)
| GetLeaf (kind : string)
| OpenFile (path : string).

(** The files of the vault by vault-relative path, and the calls made
    so far (latest first). *)
Record World : Type := {
  files : gmap string string;
  calls : list HostCall
}.

(** Effectful code: a state monad over [World] in which a [throw]
    keeps the state reached. *)
Definition Eff (A : Type) : Type := World -> Result A * World.

Definition ret {A} (a : A) : Eff A := fun w => (Ok a, w).
Definition throw {A} (e : Error) : Eff A := fun w => (Throw e, w).
Definition bind {A B} (m : Eff A) (k : A -> Eff B) : Eff B :=
  fun w => match m w with
           | (Ok a, w') => k a w'
           | (Throw e, w') => (Throw e, w')
           end.
Definition lift {A} (r : Result A) : Eff A := fun w => (r, w).

Declare Scope eff_scope.
Delimit Scope eff_scope with eff.
Notation "'let*' x := m 'in' k" := (bind m (fun x => k))
  (at level 10, x name, m at level 100, k at level 200) : eff_scope.
Notation "m ;;; k" := (bind m (fun _ => k))
  (at level 100, k at level 200, right associativity) : eff_scope.

Definition log (c : HostCall) (w : World) : World :=
  {| files := files w; calls := c :: calls w |}.

(** [await this.app.vault.adapter.exists(path)] *)
Definition adapter_exists (path : string) : Eff bool :=
  fun w => (Ok (bool_decide (is_Some (files w !! path))),
            log (AdapterExists path) w).

(** [new Notice(text)] *)
Definition new_Notice (text : string) : Eff unit :=
  fun w => (Ok tt, log (NewNotice text) w).

(** [await this.app.vault.adapter.write(path, data)] *)
Definition adapter_write (path data : string) : Eff unit :=
  fun w => (Ok tt, {| files := <[path := data]> (files w);
                      calls := AdapterWrite path data :: calls w |}).

(** [this.app.workspace.getLeaf(kind)] *)
Definition getLeaf (kind : string) : Eff unit :=
  fun w => (Ok tt, log (GetLeaf kind) w).

(** [leaf.openFile(this.app.vault.getFileByPath(path))] *)
Definition openFile (path : string) : Eff unit :=
  fun w => (Ok tt, log (OpenFile path) w).

(** [x as string] for a [string|null] *)
Definition as_string (x : option string) : Eff string :=
  match x with
  | Some s => ret s
  | None => throw NullRelativePath
  end.

Section Host.

Variable normalizePath : string -> string.

Definition createJupyterNotebook (now : Date)
    (folder : JupyterAbstractPath) : Eff unit :=
  (* Check that the notebook is being created inside of the vault *)
  if negb (JupyterAbstractPath.inVault folder) then throw OutsideVault
  else
    (* Append the filename to the folder name *)
    (let* file := lift (JupyterAbstractPath.append normalizePath folder
                          (getDefaultNotebookFilename now) false) in
     let* path := as_string (JupyterAbstractPath.getRelativePath file) in
     (* Check that the file does not already exist *)
     let* present := adapter_exists path in
     (if present : bool then new_Notice (exists_notice path)
      else ret tt) ;;;
     (* Create a notebook with the minimum amount of content *)
     adapter_write path minimal_notebook ;;;
     getLeaf "tab" ;;;
     openFile path)%eff.

End Host.

End IpynbViewer.

(** ** A model of the host's [normalizePath] *)

Module HostModel.

Definition is_separator (c : ascii) : bool :=
  Ascii.eqb c "/" || Ascii.eqb c "\".

(** Runs of separators become one ["/"]; [after_separator] tells that
    the previous character was a separator. *)
Fixpoint collapse (after_separator : bool) (s : string) : string :=
  match s with
  | EmptyString => ""
  | String c s' =>
      if is_separator c
      then if after_separator then collapse true s'
           else String "/" (collapse true s')
      else String c (collapse false s')
  end.

(** Modelled from the spec: the host's [normalizePath] is imported from
    the host API and is not part of the repository. The spec describes
    the normalized form as having no redundant separators and one
    consistent separator character. *)
Definition normalizePath (s : string) : string := collapse false s.



(** A second model, for a host that also removes the separators at both
    ends of the path and returns ["/"] when nothing is left: leading
    separators go with [collapse true], a trailing one with
    [drop_trailing]. *)
Fixpoint drop_trailing (s : string) : string :=
  match s with
  | EmptyString => ""
  | String c s' =>
      match drop_trailing s' with
      | EmptyString => if Ascii.eqb c "/" then "" else String c ""
      | r => String c r
      end
  end.

Definition or_root (s : string) : string :=
  match s with
  | EmptyString => "/"
  | _ => s
  end.

Definition normalizePath_trimmed (s : string) : string :=
  or_root (drop_trailing (collapse true s)).

End HostModel.

(** What the properties below ask of the host's [normalizePath]. *)
Record SeparatorNormalizer (normalizePath : string -> string) : Prop := {
(** a doubled separator counts as one *)
  normalize_doubled : forall s t,
  normalizePath (s +:+ "//" +:+ t) = normalizePath (s +:+ "/" +:+ t);
(** what stands before a separator may be normalized first *)
  normalize_before : forall s t,
  normalizePath (normalizePath s +:+ "/" +:+ t)
  = normalizePath (s +:+ "/" +:+ t)
}.


(** ** Sample values used in the examples *)

Module Sample.

(** A vault whose adapter reports the root [/vault]. *)
Definition vault : Vault := {| adapter := FileSystemAdapter "/vault" |}.

(** The vault of the specification's example, with root [/vault/]. *)
Definition vault_slash : Vault := {| adapter := FileSystemAdapter "/vault/" |}.

(** 5 January 2024, 13:07:59 *)
Definition now : IpynbViewer.Date :=
  {| IpynbViewer.getFullYear := 2024; IpynbViewer.getMonth := 0;
     IpynbViewer.getDate := 5; IpynbViewer.getHours := 13;
     IpynbViewer.getMinutes := 7; IpynbViewer.getSeconds := 59 |}.

Definition outside_folder : JupyterAbstractPath :=
  {| absolutePath := "/elsewhere/"; relativePath := None;
     isDirectory := true; isInVault := false |}.

Definition notes_folder : JupyterAbstractPath :=
  {| absolutePath := "/vault/Notes/"; relativePath := Some "Notes/";
     isDirectory := true; isInVault := true |}.

Definition a_file : JupyterAbstractPath :=
  {| absolutePath := "/vault/Notes/a.ipynb";
     relativePath := Some "Notes/a.ipynb";
     isDirectory := false; isInVault := true |}.

Definition world : IpynbViewer.World :=
  {| IpynbViewer.files := {[ "Notes/a.ipynb" := "{}" ]};
     IpynbViewer.calls := [] |}.

(** A vault in which the notebook that would be created at [now] under
    [notes_folder] is already there. *)
Definition world_with_notebook : IpynbViewer.World :=
  {| IpynbViewer.files :=
       {[ "Notes/Jupyter Notebook 2024-01-05-13-07-59.ipynb" := "old" ]};
     IpynbViewer.calls := [] |}.

End Sample.

(** ** The host's files *)

Module Obsidian.

(** The fields of a [TFile] that the code reads. *)
Record TFile : Type := {
  path : string;
  name : string;
  basename : string;
  extension : string
}.

Record TFolder : Type := { folder_path : string }.

Inductive TAbstractFile : Type :=
| File (file : TFile)
| Folder (folder : TFolder).

End Obsidian.

(** ** The plugin: settings, command and context menu *)

Module Plugin.

(** The values that [loadData] may hand back. *)
#[local] Unset Elimination Schemes.
Inductive Json : Type :=
| JNull
| JBool (b : bool)
| JNumber (n : Z)
| JString (s : string)
| JArray (items : list Json)
| JObject (members : list (string * Json)).
#[local] Set Elimination Schemes.

Definition DEFAULT_SETTINGS : gmap string Json :=
  {[ "mySetting" := JString "default" ]}.

(** [Object.assign(target, ...sources)] on the own keys of the objects:
    the sources are copied onto the target from left to right, a later
    one overwriting; a null source is skipped. Each key is assigned
    through the target, so an own key [__proto__] of a source goes to
    the setter of the prototype and never becomes an own key of the
    target. *)
Definition Object_assign (target : gmap string Json)
    (sources : list (option (gmap string Json))) : gmap string Json :=
  foldl (fun acc source =>
           match source with
           | Some o => delete "__proto__" o ∪ acc
           | None => acc
           end) target sources.

(** The own keys of the [settings] field of the plugin, and what
    [loadData] returns ([None] for null, while nothing is stored). *)
Record State : Type := {
  settings : gmap string Json;
  data : option (gmap string Json)
}.

Definition loadSettings (st : State) : State :=
  {| settings := Object_assign ∅ [Some DEFAULT_SETTINGS; data st];
     data := data st |}.

(** An item of the file menu; [onClick] gets the clock of the click. *)
Record MenuItem : Type := {
  title : string;
  icon : string;
  section : string;
  onClick : IpynbViewer.Date -> IpynbViewer.Eff unit
}.

Section Host.

Variable normalizePath : string -> string.

(** The callback of the command [jupyter-create-notebook] in [onload]. *)
Definition command_callback (vault : Vault) (now : IpynbViewer.Date)
    : IpynbViewer.Eff unit :=
  IpynbViewer.bind
    (IpynbViewer.lift
       (JupyterAbstractPath.fromRelative normalizePath "/" true vault))
    (fun folder =>
       IpynbViewer.createJupyterNotebook normalizePath now folder).

(** [onFileContextMenuOpened(menu, file, _source, _leaf)]: the menu as
    the list of its items. *)
Definition onFileContextMenuOpened (vault : Vault) (menu : list MenuItem)
    (file : Obsidian.TAbstractFile) : list MenuItem :=
  match file with
  | Obsidian.Folder folder =>
      menu ++
      [ {| title := "New Jupyter notebook";
           icon := "jupyter-logo";
           section := "action-primary";
           onClick := fun now =>
             IpynbViewer.bind
               (IpynbViewer.lift
                  (JupyterAbstractPath.fromRelative normalizePath
                     (Obsidian.folder_path folder) true vault))
               (fun folder =>
                  IpynbViewer.createJupyterNotebook normalizePath
                    now folder) |} ]
  | Obsidian.File _ => menu
  end.

End Host.

End Plugin.

(** ** The view of a notebook *)

Module EmbeddedJupyterView.

Definition JUPYTER_VIEW_TYPE : string := "my-jupyter-view".

(** What a call into the host or into a library throws. *)
Inductive Thrown : Type :=
| ProcessFailed (status : string)
| ReadFailed (path : string)
| ParseFailed (text : string).

Inductive Outcome (A : Type) : Type :=
| Returned (a : A)
| Raised (error : Thrown).
Arguments Returned {A} a.
Arguments Raised {A} error.

Inductive ConsoleEntry : Type :=
| LogString (s : string)
| LogFile (file : Obsidian.TFile)
| ErrorFailedToConvert (error : Thrown)
| ErrorDisplaying (error : Thrown).

(** The fields of the view and what it reaches of the host: the children
    of [containerEl.children[1]] by their [innerHTML], the console
    (latest entry first), the adapter's base path and the files the
    adapter reads. *)
Record View : Type := {
  openedFile : option Obsidian.TFile;
  cacheFilePath : option string;
  children : list string;
  console : list ConsoleEntry;
  basePath : string;
  files : gmap string string
}.

Definition M (A : Type) : Type := View -> Outcome A * View.

Definition ret {A} (a : A) : M A := fun v => (Returned a, v).
Definition raise {A} (error : Thrown) : M A := fun v => (Raised error, v).
Definition bind {A B} (m : M A) (k : A -> M B) : M B :=
  fun v => match m v with
           | (Returned a, v') => k a v'
           | (Raised error, v') => (Raised error, v')
           end.

(** [try { body } catch (error) { handler }] *)
Definition try_catch {A} (body : M A) (handler : Thrown -> M A) : M A :=
  fun v => match body v with
           | (Returned a, v') => (Returned a, v')
           | (Raised error, v') => handler error v'
           end.

Definition set_openedFile (file : Obsidian.TFile) : M unit :=
  fun v => (Returned tt,
            {| openedFile := Some file; cacheFilePath := cacheFilePath v;
               children := children v; console := console v;
               basePath := basePath v; files := files v |}).

Definition set_cacheFilePath (p : string) : M unit :=
  fun v => (Returned tt,
            {| openedFile := openedFile v; cacheFilePath := Some p;
               children := children v; console := console v;
               basePath := basePath v; files := files v |}).

Definition set_children (l : list string) (v : View) : View :=
  {| openedFile := openedFile v; cacheFilePath := cacheFilePath v;
     children := l; console := console v;
     basePath := basePath v; files := files v |}.

Definition set_files (fs : gmap string string) (v : View) : View :=
  {| openedFile := openedFile v; cacheFilePath := cacheFilePath v;
     children := children v; console := console v;
     basePath := basePath v; files := fs |}.

(** [console.log(...)] and [console.error(...)] *)
Definition console_write (entry : ConsoleEntry) : M unit :=
  fun v => (Returned tt,
            {| openedFile := openedFile v; cacheFilePath := cacheFilePath v;
               children := children v; console := entry :: console v;
               basePath := basePath v; files := files v |}).

(** [viewContainer.createDiv()]: a new empty last child; its index *)
Definition createDiv : M nat :=
  fun v => (Returned (length (children v)),
            set_children (children v ++ [""]) v).

(** [content.innerHTML = text] for the child at index [i] *)
Definition set_innerHTML (i : nat) (text : string) : M unit :=
  fun v => (Returned tt, set_children (<[i := text]> (children v)) v).

(** [await this.app.vault.adapter.read(path)] *)
Definition adapter_read (path : string) : M string :=
  fun v => match files v !! path with
           | Some content => (Returned content, v)
           | None => (Raised (ReadFailed path), v)
           end.

(** The command line handed to [execSync]. *)
Definition nbconvert_command (ipynbPath output : string) : string :=
  "/Users/ay/SoftwareData/anaconda/anaconda3/envs/torch/bin/python -m jupyter nbconvert --to html "
  +:+ IpynbViewer.quoted ipynbPath +:+ " --output "
  +:+ IpynbViewer.quoted output +:+ " --template lab".

Definition getViewType (v : View) : string := JUPYTER_VIEW_TYPE.

(** [this.openedFile?.name ?? "New Jupyter tab"] *)
Definition getDisplayText (v : View) : string :=
  match openedFile v with
  | Some file => Obsidian.name file
  | None => "New Jupyter tab"
  end.

Definition getIcon (v : View) : string := "none".

Section Host.

(** [join] of the [path] library. *)
Variable join : string -> string -> string.

(** The converter process started by [execSync]: from the command line
    and the files it finds to the error it ends with, if any, and the
    files it leaves. *)
Variable execSync :
  string -> gmap string string -> option Thrown * gmap string string.

(** [parse(html).toString()] of the HTML parser library. *)
Variable parse : string -> Outcome string.

Definition run_execSync (command : string) : M unit :=
  fun v => match execSync command (files v) with
           | (None, fs) => (Returned tt, set_files fs v)
           | (Some error, fs) => (Raised error, set_files fs v)
           end.

Definition run_parse (html : string) : M string :=
  fun v => (parse html, v).

Definition convertIpynbToHTML (ipynbPath : string) (file : Obsidian.TFile)
    : M string :=
  bind (fun v => (Returned (basePath v +:+ "/.obsidian/cache/"), v))
    (fun cacheFolder =>
  bind (console_write (LogFile file)) (fun _ =>
  (* Cache file path where the HTML will be saved *)
  let output := join cacheFolder (Obsidian.basename file +:+ ".html") in
  bind (set_cacheFilePath output) (fun _ =>
  bind (console_write (LogString output)) (fun _ =>
  let read_html_path :=
    "/.obsidian/cache/" +:+ Obsidian.basename file +:+ ".html" in
  bind (console_write (LogString read_html_path)) (fun _ =>
  try_catch
    ((* Run nbconvert to convert the notebook to HTML *)
     bind (run_execSync (nbconvert_command ipynbPath output)) (fun _ =>
     bind (adapter_read read_html_path) (fun htmlContent =>
     ret htmlContent)))
    (fun error =>
       bind (console_write (ErrorFailedToConvert error)) (fun _ =>
       raise error))))))).

Definition onLoadFile (file : Obsidian.TFile) : M unit :=
  bind (set_openedFile file) (fun _ =>
  (* Make sure the file is a Jupyter Notebook (.ipynb) *)
  if String.eqb (Obsidian.extension file) "ipynb" then
    bind (fun v => (Returned (basePath v +:+ "/" +:+ Obsidian.path file), v))
      (fun filePath =>
    bind (console_write (LogString filePath)) (fun _ =>
    try_catch
      (bind (convertIpynbToHTML filePath file) (fun htmlContent =>
       bind createDiv (fun content =>
       bind (run_parse htmlContent) (fun text =>
       set_innerHTML content text))))
      (fun error => console_write (ErrorDisplaying error))))
  else ret tt).

End Host.

End EmbeddedJupyterView.

(** ** Notions used to state properties of the file name *)

(** The character [c] occurs in [s]. *)
Fixpoint occurs (c : ascii) (s : string) : bool :=
  match s with
  | EmptyString => false
  | String a s' => Ascii.eqb a c || occurs c s'
  end.

(** The ranges in which the getters of a [Date] answer. *)
Definition clock_ranges (d : IpynbViewer.Date) : Prop :=
  (IpynbViewer.getMonth d <= 11)%nat
  /\ (1 <= IpynbViewer.getDate d <= 31)%nat
  /\ (IpynbViewer.getHours d <= 23)%nat
  /\ (IpynbViewer.getMinutes d <= 59)%nat
  /\ (IpynbViewer.getSeconds d <= 59)%nat.

(** ** Sample values for the view *)

Module SampleView.

Definition notebook : Obsidian.TFile :=
  {| Obsidian.path := "Notes/nb.ipynb"; Obsidian.name := "nb.ipynb";
     Obsidian.basename := "nb"; Obsidian.extension := "ipynb" |}.

Definition note : Obsidian.TFile :=
  {| Obsidian.path := "Notes/todo.md"; Obsidian.name := "todo.md";
     Obsidian.basename := "todo"; Obsidian.extension := "md" |}.

(** A view that shows one child already. *)
Definition view : EmbeddedJupyterView.View :=
  {| EmbeddedJupyterView.openedFile := None;
     EmbeddedJupyterView.cacheFilePath := None;
     EmbeddedJupyterView.children := ["<p>before</p>"];
     EmbeddedJupyterView.console := [];
     EmbeddedJupyterView.basePath := "/vault";
     EmbeddedJupyterView.files := ∅ |}.

Definition join (a b : string) : string := a +:+ b.

(** A converter that leaves the page of [nb] in the cache. *)
Definition converter_ok (command : string) (fs : gmap string string)
    : option EmbeddedJupyterView.Thrown * gmap string string :=
  (None, <["/.obsidian/cache/nb.html" := "<p>cells</p>"]> fs).

(** A converter that ends with an error. *)
Definition converter_fails (command : string) (fs : gmap string string)
    : option EmbeddedJupyterView.Thrown * gmap string string :=
  (Some (EmbeddedJupyterView.ProcessFailed "exit status 1"), fs).

Definition parse (html : string) : EmbeddedJupyterView.Outcome string :=
  EmbeddedJupyterView.Returned html.

End SampleView.


(** ** Facts about the string methods *)

Section StringFacts.


Lemma string_app_assoc (s t u : string) : (s +:+ t) +:+ u = s +:+ t +:+ u.
Proof. induction s as [|c s IH]; simpl; [reflexivity | now rewrite IH]. Qed.

Lemma string_length_app (s t : string) :
  String.length (s +:+ t) = (String.length s + String.length t)%nat.
Proof. induction s as [|c s IH]; simpl; [reflexivity | now rewrite IH]. Qed.

Lemma substring_all (s : string) :
  String.substring 0 (String.length s) s = s.
Proof. induction s as [|c s IH]; simpl; [reflexivity | now rewrite IH]. Qed.

Lemma substring_zero_app (s t : string) :
  String.substring 0 (String.length s) (s +:+ t) = s.
Proof.
  induction s as [|c s IH]; simpl.
  - now destruct t.
  - now rewrite IH.
Qed.

Lemma substring_skip_app (s t : string) (n : nat) :
  String.substring (String.length s) n (s +:+ t) = String.substring 0 n t.
Proof. induction s as [|c s IH]; simpl; [reflexivity | exact IH]. Qed.

Lemma substring_long (s : string) (n : nat) :
  (String.length s <= n)%nat -> String.substring 0 n s = s.
Proof.
  revert n; induction s as [|c s IH]; intros n Hn; simpl in *.
  - now destruct n.
  - destruct n as [|n]; [lia|]. rewrite IH; [reflexivity | lia].
Qed.

Lemma prefix_app (s t : string) : String.prefix s (s +:+ t) = true.
Proof.
  induction s as [|c s IH]; simpl.
  - now destruct t.
  - destruct (ascii_dec c c); [exact IH | congruence].
Qed.

Lemma prefix_inv (s t : string) :
  String.prefix s t = true -> exists u, t = s +:+ u.
Proof.
  revert t; induction s as [|c s IH]; intros t H.
  - exists t. reflexivity.
  - destruct t as [|d t]; simpl in H; [discriminate|].
    destruct (ascii_dec c d) as [->|]; [|discriminate].
    destruct (IH _ H) as [u ->]. exists u. reflexivity.
Qed.

(** [startsWith] is the prefix test. *)
Lemma startsWith_iff (s t : string) :
  JS.startsWith s t = true <-> exists u, s = t +:+ u.
Proof.
  unfold JS.startsWith. split.
  - apply prefix_inv.
  - intros [u ->]. apply prefix_app.
Qed.

(** [endsWith] is the suffix test. *)
Lemma endsWith_app (s t : string) : JS.endsWith (s +:+ t) t = true.
Proof.
  unfold JS.endsWith. rewrite string_length_app.
  apply andb_true_intro; split.
  - apply Nat.leb_le. lia.
  - replace (String.length s + String.length t - String.length t)%nat
      with (String.length s) by lia.
    rewrite substring_skip_app, substring_all. apply String.eqb_refl.
Qed.

Lemma substring_split (s : string) (n : nat) :
  (n <= String.length s)%nat ->
  s = String.substring 0 n s
      +:+ String.substring n (String.length s - n) s.
Proof.
  revert n; induction s as [|c s IH]; intros n Hn; simpl in *.
  - assert (n = 0)%nat as -> by lia. reflexivity.
  - destruct n as [|n]; simpl.
    + now rewrite substring_all.
    + rewrite <- IH by lia. reflexivity.
Qed.

Lemma endsWith_inv (s t : string) :
  JS.endsWith s t = true -> exists u, s = u +:+ t.
Proof.
  unfold JS.endsWith. intros H.
  apply andb_prop in H as [Hl He].
  apply Nat.leb_le in Hl. apply String.eqb_eq in He.
  exists (String.substring 0 (String.length s - String.length t) s).
  pose proof (substring_split s (String.length s - String.length t)) as Hs.
  replace (String.length s - (String.length s - String.length t))%nat
    with (String.length t) in Hs by lia.
  rewrite He in Hs. apply Hs. lia.
Qed.

Lemma endsWith_iff (s t : string) :
  JS.endsWith s t = true <-> exists u, s = u +:+ t.
Proof.
  split; [apply endsWith_inv | intros [u ->]; apply endsWith_app].
Qed.

(** Dropping the last character of [u ++ "/"] gives [u]. *)
Lemma substring_drop_last (u : string) (c : ascii) :
  JS.substring (u +:+ String c "") 0 (JS.length (u +:+ String c "") - 1)
  = u.
Proof.
  unfold JS.substring, JS.clamp, JS.length.
  rewrite string_length_app. simpl String.length.
  replace (Z.to_nat (Z.min (Z.max 0 0) _)) with 0%nat by lia.
  replace (Z.to_nat _) with (String.length u) by lia.
  rewrite Nat.min_0_l, Nat.max_0_l, Nat.sub_0_r.
  apply substring_zero_app.
Qed.

(** A prefix at least as long as the string is the string itself. *)
Lemma substring_prefix_long (s : string) (n : Z) :
  JS.length s <= n -> JS.substring s 0 n = s.
Proof.
  unfold JS.substring, JS.clamp, JS.length. intros Hn.
  replace (Z.to_nat (Z.min (Z.max 0 0) _)) with 0%nat by lia.
  replace (Z.to_nat _) with (String.length s) by lia.
  rewrite Nat.min_0_l, Nat.max_0_l, Nat.sub_0_r.
  apply substring_all.
Qed.

(** [substring(k)] after a prefix of length [k] is the rest. *)
Lemma substring_from_app (s t : string) :
  JS.substring_from (s +:+ t) (JS.length s) = t.
Proof.
  unfold JS.substring_from, JS.substring, JS.clamp, JS.length.
  rewrite string_length_app.
  replace (Z.to_nat (Z.min (Z.max (Z.of_nat (String.length s)) 0) _))
    with (String.length s) by lia.
  replace (Z.to_nat _)
    with (String.length s + String.length t)%nat by lia.
  rewrite Nat.min_l, Nat.max_r by lia.
  replace (String.length s + String.length t - String.length s)%nat
    with (String.length t) by lia.
  rewrite substring_skip_app. apply substring_all.
Qed.

End StringFacts.

(** ** The constructor *)

Section ConstructorFacts.

Variable normalizePath : string -> string.

#[local] Abbreviation constructor :=
  (JupyterAbstractPath.constructor normalizePath).

(** The constructor fails in one case only. *)
Lemma constructor_throws absolute relative isFolder isInVault e :
  constructor absolute relative isFolder isInVault = Throw e ->
  e = InvalidArgument /\ isInVault = true /\ relative = None.
Proof.
  unfold JupyterAbstractPath.constructor.
  destruct isInVault; simpl; [|discriminate].
  destruct relative; [discriminate|].
  intros [= <-]. auto.
Qed.

Lemma constructor_flags absolute relative isFolder isInVault x :
  constructor absolute relative isFolder isInVault = Ok x ->
  isDirectory x = isFolder /\ JupyterAbstractPath.inVault x = isInVault.
Proof.
  unfold JupyterAbstractPath.constructor, JupyterAbstractPath.inVault.
  destruct isInVault; simpl.
  - destruct relative; [|discriminate]. intros [= <-]. auto.
  - intros [= <-]. auto.
Qed.

(** The coupling of the relative path and the in-vault flag. *)
Lemma constructor_relative absolute relative isFolder isInVault x :
  constructor absolute relative isFolder isInVault = Ok x ->
  (isInVault = true -> exists r, relativePath x = Some r)
  /\ (isInVault = false -> relativePath x = None).
Proof.
  unfold JupyterAbstractPath.constructor.
  destruct isInVault; simpl.
  - destruct relative; [|discriminate]. intros [= <-]. simpl.
    split; [eauto | discriminate].
  - intros [= <-]. simpl. split; [discriminate | auto].
Qed.

(** The absolute path of a directory ends with a separator. *)
Lemma constructor_directory_absolute absolute relative isInVault x :
  constructor absolute relative true isInVault = Ok x ->
  exists u, absolutePath x = u +:+ "/".
Proof.
  unfold JupyterAbstractPath.constructor.
  set (n := normalizePath absolute). simpl.
  assert (exists u,
    (if negb (JS.endsWith n "/") then n +:+ "/" else n) = u +:+ "/")
    as [u Hu].
  { destruct (JS.endsWith n "/") eqn:E; simpl.
    - apply endsWith_inv in E. exact E.
    - eauto. }
  destruct isInVault; simpl.
  - destruct relative; [|discriminate]. intros [= <-]. simpl. eauto.
  - intros [= <-]. simpl. eauto.
Qed.

End ConstructorFacts.

Lemma constructed_relative np x :
  JupyterAbstractPath.constructed np x ->
  isInVault x = true -> exists r, relativePath x = Some r.
Proof.
  intros (a & r & f & v & H) Hv.
  destruct (constructor_flags _ _ _ _ _ _ H) as [_ Hf].
  unfold JupyterAbstractPath.inVault in Hf.
  apply (constructor_relative _ _ _ _ _ _ H). congruence.
Qed.


(** ** The claims *)

(** C4. [append] on a value whose directory flag is false fails with an
    invalid-operation error, whatever the arguments; it returns no
    value. *)
Theorem append_on_file_fails np (x : JupyterAbstractPath)
    (relativePath_ : string) (isFolder_ : bool) :
  JupyterAbstractPath.isFolder x = false ->
  exists e, JupyterAbstractPath.append np x relativePath_ isFolder_ = Throw e
            /\ e = AppendToFile /\ invalid_operation e = true.
Proof.
  intros H. unfold JupyterAbstractPath.append. rewrite H. simpl.
  exists AppendToFile. auto.
Qed.

Lemma append_on_file_fails_witness :
  exists e,
    JupyterAbstractPath.append HostModel.normalizePath Sample.a_file
      "child" true = Throw e
    /\ e = AppendToFile /\ invalid_operation e = true.
Proof. apply append_on_file_fails. reflexivity. Defined.

(** C7. The constructor fails exactly when it is called with
    [isInVault] true and a null relative path, and the error is an
    invalid operation; on every value it returns, the relative path is
    non-null if and only if the in-vault flag is true, and
    [getRelativePath] returns null exactly when [inVault()] is false. *)
Theorem relative_path_iff_in_vault np (absolute : string)
    (relative : option string) (isFolder_ isInVault_ : bool) :
  (exists e, JupyterAbstractPath.constructor np absolute None isFolder_ true
             = Throw e /\ invalid_operation e = true)
  /\ ((exists x, JupyterAbstractPath.constructor np absolute relative
                   isFolder_ isInVault_ = Ok x)
      <-> ~ (isInVault_ = true /\ relative = None))
  /\ (forall x,
        JupyterAbstractPath.constructor np absolute relative
          isFolder_ isInVault_ = Ok x ->
        (relativePath x <> None <-> JupyterAbstractPath.inVault x = true)
        /\ (JupyterAbstractPath.getRelativePath x = None
            <-> JupyterAbstractPath.inVault x = false)).
Proof.
  split; [|split].
  - exists InvalidArgument. split; reflexivity.
  - split.
    + intros [x Hx] [-> ->]. discriminate Hx.
    + intros Hn.
      destruct (JupyterAbstractPath.constructor np absolute relative
                  isFolder_ isInVault_) as [x|e] eqn:E; [eauto|].
      apply constructor_throws in E. tauto.
  - intros x Hx.
    destruct (constructor_flags _ _ _ _ _ _ Hx) as [_ Hv].
    destruct (constructor_relative _ _ _ _ _ _ Hx) as [Ht Hf].
    unfold JupyterAbstractPath.getRelativePath,
      JupyterAbstractPath.inVault in *.
    destruct (isInVault x) eqn:Ev; subst isInVault_; simpl.
    + destruct (Ht eq_refl) as [r ->].
      repeat split; intros; congruence.
    + rewrite (Hf eq_refl). repeat split; intros; congruence.
Qed.

(** C10. When [inVault()] of the folder is false, [createJupyterNotebook]
    throws before any call into the host: nothing is checked, written or
    opened, and the vault is as it was. *)
Theorem create_outside_vault_touches_nothing np (now : IpynbViewer.Date)
    (folder : JupyterAbstractPath) (w : IpynbViewer.World) :
  JupyterAbstractPath.inVault folder = false ->
  IpynbViewer.createJupyterNotebook np now folder w = (Throw OutsideVault, w).
Proof.
  intros H. unfold IpynbViewer.createJupyterNotebook. rewrite H.
  reflexivity.
Qed.

Lemma create_outside_vault_touches_nothing_witness :
  IpynbViewer.createJupyterNotebook HostModel.normalizePath Sample.now
    Sample.outside_folder Sample.world
  = (Throw OutsideVault, Sample.world).
Proof. apply create_outside_vault_touches_nothing. reflexivity. Defined.

(** *** [fromAbsolute] and [fromRelative] *)

(** What [fromAbsolute] computes once the root is known. *)
Lemma fromAbsolute_unfold np absolute isFolder_ root :
  JupyterAbstractPath.fromAbsolute np absolute isFolder_
    {| adapter := FileSystemAdapter root |}
  = JupyterAbstractPath.constructor np absolute
      (if JS.startsWith absolute root
       then Some (JS.substring_from absolute (JS.length root))
       else None)
      isFolder_ (JS.startsWith absolute root).
Proof. reflexivity. Qed.

(** C3, as the code has it. For a vault whose root path is [root],
    [fromAbsolute] returns a value; its [inVault()] is true if and only
    if the absolute path starts with [root], the string that
    [getVaultRootPath] returns. When it is, and [u] is the absolute path
    with that prefix stripped, the relative path of a directory is [u]
    with a separator added at the end unless [u] already ends with one,
    and the relative path of a file is [u] when [u] does not end with a
    separator. Outside the vault there is no relative path. *)
Theorem fromAbsolute_classification np (absolute : string)
    (isFolder_ : bool) (root : string) :
  exists x,
    JupyterAbstractPath.fromAbsolute np absolute isFolder_
      {| adapter := FileSystemAdapter root |} = Ok x
    /\ (JupyterAbstractPath.inVault x = true
        <-> JS.startsWith absolute root = true)
    /\ (JupyterAbstractPath.inVault x = true
        <-> exists u, absolute = root +:+ u)
    /\ (forall u, absolute = root +:+ u ->
          JS.substring_from absolute (JS.length root) = u
          /\ (isFolder_ = true ->
              JupyterAbstractPath.getRelativePath x
              = Some (if JS.endsWith u "/" then u else u +:+ "/"))
          /\ (isFolder_ = false -> JS.endsWith u "/" = false ->
              JupyterAbstractPath.getRelativePath x = Some u))
    /\ (JupyterAbstractPath.inVault x = false ->
        JupyterAbstractPath.getRelativePath x = None).
Proof.
  rewrite fromAbsolute_unfold.
  unfold JupyterAbstractPath.constructor,
    JupyterAbstractPath.getRelativePath, JupyterAbstractPath.inVault.
  destruct (JS.startsWith absolute root) eqn:E; simpl.
  - eexists. split; [reflexivity|]. simpl.
    split; [tauto|]. split.
    { split; [intros _; now apply startsWith_iff | reflexivity]. }
    split; [|discriminate].
    intros u ->. rewrite substring_from_app.
    split; [reflexivity|]. split.
    + intros ->. simpl. now destruct (JS.endsWith u "/").
    + intros -> ->. reflexivity.
  - eexists. split; [reflexivity|]. simpl.
    split; [split; discriminate|]. split.
    { split; [discriminate|]. intros Hu. apply startsWith_iff in Hu.
      congruence. }
    split; [|reflexivity].
    intros u ->. unfold JS.startsWith in E. rewrite prefix_app in E.
    discriminate.
Qed.

(** C3 as stated fails, in the test and in the relative path. The test
    is made against the root as [getVaultRootPath] returns it, not
    against its normalized form: with the root [C:\vault], whose
    normalized form is [C:/vault] in both models of the host, the path
    [C:\vault\x] is classified as in the vault although it does not
    start with the normalized root, and the path [C:/vault/x] is
    classified as outside although it does. And for the directory
    [/vault/Notes] in the vault rooted at [/vault] the relative path is
    [/Notes/], not the absolute path with the root prefix stripped,
    [/Notes]. *)
Lemma fromAbsolute_tests_the_root_as_returned :
  HostModel.normalizePath "C:\vault" = "C:/vault"
  /\ HostModel.normalizePath_trimmed "C:\vault" = "C:/vault"
  /\ (exists x,
        JupyterAbstractPath.fromAbsolute HostModel.normalizePath
          "C:\vault\x" false {| adapter := FileSystemAdapter "C:\vault" |}
        = Ok x
        /\ JupyterAbstractPath.inVault x = true
        /\ JS.startsWith "C:\vault\x" "C:/vault" = false)
  /\ (exists x,
        JupyterAbstractPath.fromAbsolute HostModel.normalizePath
          "C:/vault/x" false {| adapter := FileSystemAdapter "C:\vault" |}
        = Ok x
        /\ JupyterAbstractPath.inVault x = false
        /\ JS.startsWith "C:/vault/x" "C:/vault" = true)
  /\ (exists x,
        JupyterAbstractPath.fromAbsolute HostModel.normalizePath
          "/vault/Notes" true Sample.vault = Ok x
        /\ JupyterAbstractPath.inVault x = true
        /\ JS.substring_from "/vault/Notes" (JS.length "/vault") = "/Notes"
        /\ JupyterAbstractPath.getRelativePath x = Some "/Notes/"
        /\ JupyterAbstractPath.getRelativePath x
           <> Some (JS.substring_from "/vault/Notes" (JS.length "/vault"))).
Proof.
  split; [reflexivity|]. split; [reflexivity|].
  split; [|split].
  - eexists. split; [reflexivity|]. split; reflexivity.
  - eexists. split; [reflexivity|]. split; reflexivity.
  - eexists. split; [reflexivity|]. repeat split. discriminate.
Qed.

(** What [fromRelative] computes once the root is known. *)
Lemma fromRelative_unfold np relative isFolder_ root :
  JupyterAbstractPath.fromRelative np relative isFolder_
    {| adapter := FileSystemAdapter root |}
  = JupyterAbstractPath.constructor np
      ((if negb (JS.endsWith root "/") then root +:+ "/" else root)
       +:+ (if JS.startsWith relative "/"
            then JS.substring_from relative 1 else relative))
      (Some (if JS.startsWith relative "/"
             then JS.substring_from relative 1 else relative))
      isFolder_ true.
Proof. reflexivity. Qed.

(** The relative path handed to [fromRelative] is never passed to
    [normalizePath]: a path that does not end with a separator comes
    back as it is for a file, whatever the host's normalization. *)
Lemma fromRelative_file_keeps_relative np relative root :
  JS.startsWith relative "/" = false ->
  JS.endsWith relative "/" = false ->
  exists x,
    JupyterAbstractPath.fromRelative np relative false
      {| adapter := FileSystemAdapter root |} = Ok x
    /\ JupyterAbstractPath.getRelativePath x = Some relative.
Proof.
  intros Hs He. rewrite fromRelative_unfold, Hs.
  unfold JupyterAbstractPath.constructor. simpl. rewrite He.
  eexists. split; reflexivity.
Qed.

(** C2, evaluated where it fails. The relative path [a//b], which does
    not start with a separator, is read back unchanged from the file
    path built by [fromRelative], for every [normalizePath] and every
    root: the doubled separator is still there. *)
Theorem fromRelative_relative_not_normalized np (root : string) :
  exists x,
    JupyterAbstractPath.fromRelative np "a//b" false
      {| adapter := FileSystemAdapter root |} = Ok x
    /\ JupyterAbstractPath.getRelativePath x = Some "a//b".
Proof. apply fromRelative_file_keeps_relative; reflexivity. Qed.

(** A directory keeps the separators its relative path ends with: two
    of them stay two. *)
Lemma directory_relative_keeps_doubled_separator np (root : string) :
  exists x,
    JupyterAbstractPath.fromRelative np "Notes//" true
      {| adapter := FileSystemAdapter root |} = Ok x
    /\ JupyterAbstractPath.getRelativePath x = Some "Notes//".
Proof.
  rewrite fromRelative_unfold.
  unfold JupyterAbstractPath.constructor. simpl.
  eexists. split; reflexivity.
Qed.

(** What does hold of a directory: both paths end with a separator. *)
Lemma directory_paths_end_with_separator np absolute relative isInVault_ x :
  JupyterAbstractPath.constructor np absolute relative true isInVault_ = Ok x ->
  JS.endsWith (JupyterAbstractPath.getAbsolutePath x) "/" = true
  /\ (forall r, JupyterAbstractPath.getRelativePath x = Some r ->
                JS.endsWith r "/" = true).
Proof.
  intros H. split.
  - destruct (constructor_directory_absolute _ _ _ _ _ H) as [u Hu].
    unfold JupyterAbstractPath.getAbsolutePath. rewrite Hu.
    apply endsWith_app.
  - revert H. unfold JupyterAbstractPath.constructor,
      JupyterAbstractPath.getRelativePath.
    destruct isInVault_; simpl.
    + destruct relative as [r0|]; [|discriminate].
      intros [= <-] r. simpl. intros [= <-].
      destruct (JS.endsWith r0 "/") eqn:E; simpl; [exact E|].
      apply endsWith_app.
    + intros [= <-] r. simpl. discriminate.
Qed.

(** C1, evaluated where it fails. For the file path built by
    [fromRelative] from [Notes/], the constructor cuts the relative path
    at the length of the absolute path less one; as soon as the absolute
    path is longer than the relative one nothing is cut, and the
    relative path of the file still ends with the separator. *)
Theorem file_relative_keeps_separator np (root : string)
    (x : JupyterAbstractPath) :
  JupyterAbstractPath.fromRelative np "Notes/" false
    {| adapter := FileSystemAdapter root |} = Ok x ->
  JS.length "Notes/" < JS.length (JupyterAbstractPath.getAbsolutePath x) ->
  JupyterAbstractPath.isFolder x = false
  /\ JupyterAbstractPath.getRelativePath x = Some "Notes/"
  /\ JS.endsWith "Notes/" "/" = true.
Proof.
  rewrite fromRelative_unfold.
  unfold JupyterAbstractPath.constructor. simpl.
  intros [= <-]. simpl. intros Hlen.
  unfold JupyterAbstractPath.getRelativePath; simpl.
  repeat split.
  f_equal. apply substring_prefix_long. lia.
Qed.

Lemma file_relative_keeps_separator_witness :
  JupyterAbstractPath.isFolder
    {| absolutePath := "/vault/Notes"; relativePath := Some "Notes/";
       isDirectory := false; isInVault := true |} = false
  /\ JupyterAbstractPath.getRelativePath
       {| absolutePath := "/vault/Notes"; relativePath := Some "Notes/";
          isDirectory := false; isInVault := true |} = Some "Notes/"
  /\ JS.endsWith "Notes/" "/" = true.
Proof.
  apply (file_relative_keeps_separator HostModel.normalizePath "/vault").
  - reflexivity.
  - vm_compute. reflexivity.
Defined.

(** *** [append] *)

(** The segment that [append] concatenates: the child segment less one
    leading separator. *)
Lemma substring_from_separator (rest : string) :
  JS.substring_from ("/" +:+ rest) 1 = rest.
Proof. exact (substring_from_app "/" rest). Qed.

Lemma append_unfold np x childSegment isFolder_ :
  JupyterAbstractPath.isFolder x = true ->
  JupyterAbstractPath.append np x childSegment isFolder_
  = let segment := if JS.startsWith childSegment "/"
                   then JS.substring_from childSegment 1
                   else childSegment in
    JupyterAbstractPath.constructor np
      (absolutePath x +:+ segment)
      (option_map (fun r => r +:+ segment) (relativePath x))
      isFolder_ (JupyterAbstractPath.inVault x).
Proof.
  intros H. unfold JupyterAbstractPath.append. rewrite H. simpl.
  now destruct (relativePath x).
Qed.

(** On a directory that came out of the constructor, [append] returns a
    value. *)
Lemma append_ok np x childSegment isFolder_ :
  JupyterAbstractPath.constructed np x ->
  JupyterAbstractPath.isFolder x = true ->
  exists y,
    JupyterAbstractPath.append np x childSegment isFolder_ = Ok y
    /\ JupyterAbstractPath.constructed np y
    /\ JupyterAbstractPath.isFolder y = isFolder_
    /\ JupyterAbstractPath.inVault y = JupyterAbstractPath.inVault x.
Proof.
  intros Hc Hd. rewrite append_unfold by assumption. cbv zeta.
  match goal with
  | |- exists y, ?c = Ok y /\ _ => destruct c as [y|e] eqn:E
  end.
  - exists y. split; [reflexivity|]. split.
    + red. eauto.
    + apply constructor_flags in E. exact E.
  - apply constructor_throws in E as (_ & Hv & Hr).
    destruct (constructed_relative _ _ Hc Hv) as [r Hx].
    rewrite Hx in Hr. discriminate.
Qed.

(** C9. On a directory [x], [append] returns a new object: it is
    allocated at a reference that was free, the object at [this] keeps
    its four fields, and so does every other object. The new value has
    the in-vault flag of [x], and it is constructed from both paths of
    [x] with the child segment concatenated, one leading separator of
    the segment stripped. *)
Theorem append_returns_new_value np (h : gmap nat JupyterAbstractPath)
    (this : nat) (x : JupyterAbstractPath) (childSegment : string)
    (isFolder_ : bool) :
  h !! this = Some x ->
  JupyterAbstractPath.constructed np x ->
  JupyterAbstractPath.isFolder x = true ->
  exists (new : nat) (y : JupyterAbstractPath) (segment : string),
    Objects.append np this childSegment isFolder_ h
    = Some (Ok (new, <[new := y]> h))
    /\ h !! new = None
    /\ <[new := y]> h !! this = Some x
    /\ (forall o, o <> new -> <[new := y]> h !! o = h !! o)
    /\ JupyterAbstractPath.append np x childSegment isFolder_ = Ok y
    /\ JupyterAbstractPath.inVault y = JupyterAbstractPath.inVault x
    /\ JupyterAbstractPath.isFolder y = isFolder_
    /\ (forall rest, childSegment = "/" +:+ rest -> segment = rest)
    /\ (JS.startsWith childSegment "/" = false -> segment = childSegment)
    /\ JupyterAbstractPath.constructor np
         (absolutePath x +:+ segment)
         (option_map (fun r => r +:+ segment) (relativePath x))
         isFolder_ (JupyterAbstractPath.inVault x) = Ok y.
Proof.
  intros Hx Hc Hd.
  destruct (append_ok np x childSegment isFolder_ Hc Hd)
    as (y & Hy & _ & Hf & Hv).
  set (new := fresh (dom h)).
  assert (h !! new = None) as Hnew.
  { apply not_elem_of_dom. apply is_fresh. }
  exists new, y,
    (if JS.startsWith childSegment "/"
     then JS.substring_from childSegment 1 else childSegment).
  split.
  { unfold Objects.append. rewrite Hx. simpl. rewrite Hd. simpl.
    f_equal. unfold Objects.new.
    rewrite append_unfold in Hy by assumption. cbv zeta in Hy.
    destruct (relativePath x); simpl in *; rewrite Hy; reflexivity. }
  split; [exact Hnew|]. split.
  { rewrite lookup_insert_ne; [exact Hx | congruence]. }
  split.
  { intros o Ho. now rewrite lookup_insert_ne. }
  split; [exact Hy|]. split; [exact Hv|]. split; [exact Hf|]. split.
  { intros rest ->.
    assert (JS.startsWith ("/" +:+ rest) "/" = true) as ->
      by (apply startsWith_iff; eauto).
    apply substring_from_separator. }
  split.
  { intros ->. reflexivity. }
  rewrite append_unfold in Hy by assumption. exact Hy.
Qed.

Lemma notes_folder_constructed :
  JupyterAbstractPath.constructed HostModel.normalizePath Sample.notes_folder.
Proof. exists "/vault/Notes/", (Some "Notes/"), true, true. reflexivity. Qed.

Lemma append_returns_new_value_witness :
  ({[ 0%nat := Sample.notes_folder ]} : gmap nat JupyterAbstractPath)
    !! 0%nat = Some Sample.notes_folder
  /\ JupyterAbstractPath.isFolder Sample.notes_folder = true
  /\ exists new y,
       Objects.append HostModel.normalizePath 0 "/2024-Log.ipynb" false
         {[ 0%nat := Sample.notes_folder ]}
       = Some (Ok (new, <[new := y]> {[ 0%nat := Sample.notes_folder ]}))
       /\ <[new := y]>
            ({[ 0%nat := Sample.notes_folder ]}
               : gmap nat JupyterAbstractPath) !! 0%nat
          = Some Sample.notes_folder
       /\ JupyterAbstractPath.inVault y = true.
Proof.
  split; [reflexivity|]. split; [reflexivity|].
  destruct (append_returns_new_value HostModel.normalizePath
              {[ 0%nat := Sample.notes_folder ]} 0 Sample.notes_folder
              "/2024-Log.ipynb" false)
    as (new & y & segment & H1 & _ & H3 & _ & _ & H6 & _).
  - reflexivity.
  - exact notes_folder_constructed.
  - reflexivity.
  - exists new, y. split; [exact H1|]. split; [exact H3 | exact H6].
Defined.

(** *** [createJupyterNotebook] *)

(** C8. For a folder in the vault, [createJupyterNotebook] asks the
    adapter whether the target file exists; when it does, a notice is
    shown, and in either case the fixed minimal notebook is then written
    to that path and the file opened: the check does not stop the
    write. *)
Theorem create_writes_even_if_file_exists np (now : IpynbViewer.Date)
    (folder : JupyterAbstractPath) (w : IpynbViewer.World) :
  JupyterAbstractPath.constructed np folder ->
  JupyterAbstractPath.isFolder folder = true ->
  JupyterAbstractPath.inVault folder = true ->
  exists file path w',
    JupyterAbstractPath.append np folder
      (IpynbViewer.getDefaultNotebookFilename now) false = Ok file
    /\ JupyterAbstractPath.getRelativePath file = Some path
    /\ IpynbViewer.createJupyterNotebook np now folder w = (Ok tt, w')
    /\ IpynbViewer.files w'
       = <[path := IpynbViewer.minimal_notebook]> (IpynbViewer.files w)
    /\ IpynbViewer.files w' !! path = Some IpynbViewer.minimal_notebook
    /\ (is_Some (IpynbViewer.files w !! path) ->
        IpynbViewer.calls w'
        = IpynbViewer.OpenFile path
            :: IpynbViewer.GetLeaf "tab"
            :: IpynbViewer.AdapterWrite path IpynbViewer.minimal_notebook
            :: IpynbViewer.NewNotice (IpynbViewer.exists_notice path)
            :: IpynbViewer.AdapterExists path
            :: IpynbViewer.calls w)
    /\ (IpynbViewer.files w !! path = None ->
        IpynbViewer.calls w'
        = IpynbViewer.OpenFile path
            :: IpynbViewer.GetLeaf "tab"
            :: IpynbViewer.AdapterWrite path IpynbViewer.minimal_notebook
            :: IpynbViewer.AdapterExists path
            :: IpynbViewer.calls w).
Proof.
  intros Hc Hd Hv.
  destruct (append_ok np folder (IpynbViewer.getDefaultNotebookFilename now)
              false Hc Hd) as (file & Hfile & Hcf & _ & Hvf).
  rewrite Hv in Hvf.
  destruct (constructed_relative _ _ Hcf Hvf) as [path Hpath].
  assert (JupyterAbstractPath.getRelativePath file = Some path) as Hget.
  { unfold JupyterAbstractPath.getRelativePath.
    unfold JupyterAbstractPath.inVault in Hvf. now rewrite Hvf. }
  exists file, path.
  unfold IpynbViewer.createJupyterNotebook. rewrite Hv. simpl.
  unfold IpynbViewer.bind at 1. unfold IpynbViewer.lift. rewrite Hfile.
  unfold IpynbViewer.bind at 1. rewrite Hget. simpl.
  unfold IpynbViewer.bind at 1. simpl.
  destruct (bool_decide (is_Some (IpynbViewer.files w !! path))) eqn:E.
  - apply bool_decide_eq_true in E.
    eexists. split; [reflexivity|]. split; [reflexivity|].
    split; [reflexivity|]. simpl.
    split; [reflexivity|]. split; [apply lookup_insert_eq|].
    split; [reflexivity|].
    intros Hn. rewrite Hn in E. now destruct E.
  - apply bool_decide_eq_false in E.
    eexists. split; [reflexivity|]. split; [reflexivity|].
    split; [reflexivity|]. simpl.
    split; [reflexivity|]. split; [apply lookup_insert_eq|].
    split; [|reflexivity].
    intros Hs. contradiction.
Qed.

(** *** The model of [normalizePath] *)

Lemma collapse_collapsed_prefix (b : bool) (s t : string) :
  HostModel.collapse b (HostModel.collapse b s +:+ t)
  = HostModel.collapse b (s +:+ t).
Proof.
  revert b; induction s as [|c s IH]; intros b; simpl; [reflexivity|].
  destruct (HostModel.is_separator c) eqn:Ec.
  - destruct b; simpl; [apply IH|]. now rewrite IH.
  - simpl. rewrite Ec. now rewrite IH.
Qed.

Lemma collapse_doubled (b : bool) (s t : string) :
  HostModel.collapse b (s +:+ "//" +:+ t)
  = HostModel.collapse b (s +:+ "/" +:+ t).
Proof.
  revert b; induction s as [|c s IH]; intros b; simpl.
  - now destruct b.
  - destruct (HostModel.is_separator c); [destruct b|]; now rewrite IH.
Qed.




(** *** Appending twice *)

Lemma prefix_empty (s : string) : String.prefix "" s = true.
Proof. now destruct s. Qed.

Lemma startsWith_app_nonempty (c : ascii) (p t : string) :
  JS.startsWith (String c p +:+ t) "/" = JS.startsWith (String c p) "/".
Proof.
  destruct (JS.startsWith (String c p) "/") eqn:E.
  - apply startsWith_iff in E as [r E]. apply startsWith_iff.
    exists (r +:+ t). rewrite E. apply string_app_assoc.
  - destruct (JS.startsWith (String c p +:+ t) "/") eqn:E'; [|reflexivity].
    apply startsWith_iff in E' as [r E']. simpl in E'.
    injection E' as -> _.
    assert (JS.startsWith (String "/" p) "/" = true) as H
      by (apply startsWith_iff; exists p; reflexivity).
    congruence.
Qed.


Lemma constructor_absolute np absolute relative isFolder_ isInVault_ x :
  JupyterAbstractPath.constructor np absolute relative isFolder_ isInVault_
  = Ok x ->
  absolutePath x
  = (if isFolder_ && negb (JS.endsWith (np absolute) "/")
     then np absolute +:+ "/"
     else if negb isFolder_ && JS.endsWith (np absolute) "/"
          then JS.substring (np absolute) 0 (JS.length (np absolute) - 1)
          else np absolute).
Proof.
  unfold JupyterAbstractPath.constructor.
  destruct isInVault_; simpl.
  - destruct relative; [|discriminate]. now intros [= <-].
  - now intros [= <-].
Qed.

Section AppendTwice.

Variable normalizePath : string -> string.
Hypothesis laws : SeparatorNormalizer normalizePath.




End AppendTwice.



(** *** The model that trims both ends obeys the same laws *)

Lemma collapse_separator_first (b : bool) (t : string) :
  HostModel.collapse b ("/" +:+ t)
  = if b then HostModel.collapse true t
    else String "/" (HostModel.collapse true t).
Proof. reflexivity. Qed.

(** A trailing separator dropped before a separator is not missed. *)
Lemma collapse_drop_trailing (b : bool) (u t : string) :
  HostModel.collapse b (HostModel.drop_trailing u +:+ "/" +:+ t)
  = HostModel.collapse b (u +:+ "/" +:+ t).
Proof.
  revert b; induction u as [|c u IH]; intros b; [reflexivity|].
  cbn [HostModel.drop_trailing].
  destruct (HostModel.drop_trailing u) as [|d r] eqn:Er.
  - destruct (Ascii.eqb_spec c "/") as [-> | Hc].
    + change (String "/" u +:+ "/" +:+ t) with ("/" +:+ (u +:+ "/" +:+ t)).
      change ("" +:+ "/" +:+ t) with ("/" +:+ t) in *.
      rewrite (collapse_separator_first b (u +:+ "/" +:+ t)).
      rewrite <- (IH true). rewrite !collapse_separator_first.
      now destruct b.
    + change (HostModel.collapse b (String c ("" +:+ "/" +:+ t))
              = HostModel.collapse b (String c (u +:+ "/" +:+ t))).
      cbn [HostModel.collapse].
      destruct (HostModel.is_separator c); [destruct b|]; now rewrite IH.
  - change (HostModel.collapse b (String c (String d r +:+ "/" +:+ t))
            = HostModel.collapse b (String c (u +:+ "/" +:+ t))).
    cbn [HostModel.collapse].
    destruct (HostModel.is_separator c); [destruct b|]; now rewrite IH.
Qed.

Lemma collapse_or_root (u t : string) :
  HostModel.collapse true
    (HostModel.or_root (HostModel.drop_trailing u) +:+ "/" +:+ t)
  = HostModel.collapse true (u +:+ "/" +:+ t).
Proof.
  rewrite <- (collapse_drop_trailing true u t).
  destruct (HostModel.drop_trailing u); reflexivity.
Qed.

Lemma HostModel_trimmed_separator_normalizer :
  SeparatorNormalizer HostModel.normalizePath_trimmed.
Proof.
  split; intros s t; unfold HostModel.normalizePath_trimmed.
  - now rewrite collapse_doubled.
  - rewrite collapse_or_root.
    now rewrite (collapse_collapsed_prefix true s ("/" +:+ t)).
Qed.

(** *** The example of the specification *)



(** The relative path of the example does not depend on the host: it is
    [Notes/2024-Log.ipynb] for every [normalizePath]. *)
Lemma example_relative_path np x y :
  JupyterAbstractPath.fromRelative np "Notes/" true Sample.vault_slash = Ok x ->
  JupyterAbstractPath.append np x "2024-Log.ipynb" false = Ok y ->
  JupyterAbstractPath.getRelativePath y = Some "Notes/2024-Log.ipynb".
Proof.
  unfold Sample.vault_slash. rewrite fromRelative_unfold.
  unfold JupyterAbstractPath.constructor at 1. simpl.
  intros [= <-]. rewrite append_unfold by reflexivity. simpl.
  unfold JupyterAbstractPath.constructor. simpl.
  now intros [= <-].
Qed.

(** The absolute path does: with the model that trims both ends, the
    leading separator of the example's absolute path is gone. *)
Lemma example_absolute_path_trimmed :
  (x ← JupyterAbstractPath.fromRelative HostModel.normalizePath_trimmed
         "Notes/" true Sample.vault_slash;
   y ← JupyterAbstractPath.append HostModel.normalizePath_trimmed
         x "2024-Log.ipynb" false;
   mret (JupyterAbstractPath.getAbsolutePath y))
  = Ok "vault/Notes/2024-Log.ipynb".
Proof. reflexivity. Qed.


Lemma create_writes_even_if_file_exists_witness :
  JupyterAbstractPath.inVault Sample.notes_folder = true
  /\ is_Some (IpynbViewer.files Sample.world_with_notebook
                !! "Notes/Jupyter Notebook 2024-01-05-13-07-59.ipynb")
  /\ exists w',
       IpynbViewer.createJupyterNotebook HostModel.normalizePath Sample.now
         Sample.notes_folder Sample.world_with_notebook = (Ok tt, w')
       /\ IpynbViewer.files w'
            !! "Notes/Jupyter Notebook 2024-01-05-13-07-59.ipynb"
          = Some IpynbViewer.minimal_notebook.
Proof.
  split; [reflexivity|]. split; [eexists; reflexivity|].
  destruct (create_writes_even_if_file_exists HostModel.normalizePath
              Sample.now Sample.notes_folder Sample.world_with_notebook)
    as (file & path & w' & Hfile & Hpath & Hrun & _ & Hread & _).
  - exact notes_folder_constructed.
  - reflexivity.
  - reflexivity.
  - exists w'. split; [exact Hrun|].
    assert (path = "Notes/Jupyter Notebook 2024-01-05-13-07-59.ipynb")
      as <-; [|exact Hread].
    vm_compute in Hfile. injection Hfile as <-.
    vm_compute in Hpath. now injection Hpath.
Defined.

(** The run of the sample: the notice comes between the existence check
    and the write. *)
Example create_over_existing_notebook_calls :
  IpynbViewer.calls
    (snd (IpynbViewer.createJupyterNotebook HostModel.normalizePath
            Sample.now Sample.notes_folder Sample.world_with_notebook))
  = [ IpynbViewer.OpenFile
        "Notes/Jupyter Notebook 2024-01-05-13-07-59.ipynb";
      IpynbViewer.GetLeaf "tab";
      IpynbViewer.AdapterWrite
        "Notes/Jupyter Notebook 2024-01-05-13-07-59.ipynb"
        IpynbViewer.minimal_notebook;
      IpynbViewer.NewNotice
        (IpynbViewer.exists_notice
           "Notes/Jupyter Notebook 2024-01-05-13-07-59.ipynb");
      IpynbViewer.AdapterExists
        "Notes/Jupyter Notebook 2024-01-05-13-07-59.ipynb" ].
Proof. vm_compute. reflexivity. Qed.

(** The document has an empty cell list and the format markers 4 and 5. *)
Example minimal_notebook_fields :
  String.length IpynbViewer.minimal_notebook = 137%nat
  /\ String.index 0 (IpynbViewer.quoted "cells" +:+ ": []")
       IpynbViewer.minimal_notebook = Some 1%nat
  /\ String.index 0
       (IpynbViewer.quoted "nbformat" +:+ ": 4,"
        +:+ IpynbViewer.quoted "nbformat_minor" +:+ ": 5}")
       IpynbViewer.minimal_notebook = Some 103%nat.
Proof. repeat split. Qed.

(** ** Further properties of the path module *)

Lemma getVaultRootPath_cases vault :
  (adapter vault = OtherAdapter
   /\ getVaultRootPath vault = Throw InvalidEnvironment)
  \/ (exists root, adapter vault = FileSystemAdapter root
                   /\ getVaultRootPath vault = Ok root).
Proof.
  unfold getVaultRootPath. destruct (adapter vault) as [root|]; eauto.
Qed.

Lemma vault_eta vault :
  vault = {| adapter := adapter vault |}.
Proof. now destruct vault. Qed.

(** X1. [fromAbsolute] and [fromRelative] return a value exactly when the
    adapter of the vault is a [FileSystemAdapter]; with any other
    adapter both throw the invalid-environment error, whatever the path
    and the flag. *)
Theorem factories_need_file_system np (p : string) (isFolder_ : bool)
    (vault : Vault) :
  ((exists x, JupyterAbstractPath.fromAbsolute np p isFolder_ vault = Ok x)
   <-> exists root, adapter vault = FileSystemAdapter root)
  /\ ((exists x, JupyterAbstractPath.fromRelative np p isFolder_ vault = Ok x)
      <-> exists root, adapter vault = FileSystemAdapter root)
  /\ (adapter vault = OtherAdapter ->
      JupyterAbstractPath.fromAbsolute np p isFolder_ vault
      = Throw InvalidEnvironment
      /\ JupyterAbstractPath.fromRelative np p isFolder_ vault
         = Throw InvalidEnvironment).
Proof.
  rewrite (vault_eta vault). simpl adapter.
  destruct (adapter vault) as [root|].
  - split; [|split].
    + split; [eauto|]. intros _. rewrite fromAbsolute_unfold.
      match goal with
      | |- exists x, ?c = Ok x => destruct c as [x|e] eqn:E
      end; [eauto|].
      apply constructor_throws in E as (_ & Hv & Hr).
      rewrite Hv in Hr. discriminate.
    + split; [eauto|]. intros _. rewrite fromRelative_unfold.
      match goal with
      | |- exists x, ?c = Ok x => destruct c as [x|e] eqn:E
      end; [eauto|].
      apply constructor_throws in E as (_ & _ & E). discriminate.
    + discriminate.
  - split; [|split].
    + split; [intros [x Hx]; discriminate | intros [root H]; discriminate].
    + split; [intros [x Hx]; discriminate | intros [root H]; discriminate].
    + intros _. split; reflexivity.
Qed.

(** X2. A value built by [fromRelative] is flagged as in the vault, has
    the directory flag that was asked for, and has a relative path;
    nothing about the strings is tested for that. *)
Theorem fromRelative_is_in_vault np (relative : string) (isFolder_ : bool)
    (vault : Vault) (x : JupyterAbstractPath) :
  JupyterAbstractPath.fromRelative np relative isFolder_ vault = Ok x ->
  JupyterAbstractPath.inVault x = true
  /\ JupyterAbstractPath.isFolder x = isFolder_
  /\ exists r, JupyterAbstractPath.getRelativePath x = Some r.
Proof.
  rewrite (vault_eta vault).
  destruct (adapter vault) as [root|]; [|discriminate].
  rewrite fromRelative_unfold. intros H.
  destruct (constructor_flags _ _ _ _ _ _ H) as [Hf Hv].
  destruct (constructor_relative _ _ _ _ _ _ H) as [[r Hr] _];
    [reflexivity|].
  repeat split; try assumption.
  exists r. unfold JupyterAbstractPath.getRelativePath.
  unfold JupyterAbstractPath.inVault in Hv. now rewrite Hv.
Qed.

Lemma fromRelative_is_in_vault_witness :
  JupyterAbstractPath.inVault Sample.notes_folder = true
  /\ JupyterAbstractPath.isFolder Sample.notes_folder = true
  /\ exists r, JupyterAbstractPath.getRelativePath Sample.notes_folder
               = Some r.
Proof.
  apply (fromRelative_is_in_vault HostModel.normalizePath "Notes" true
           Sample.vault).
  reflexivity.
Defined.

(** X3. One leading separator of the relative path does not matter to
    [fromRelative]: [/r] and [r] give the same result when [r] does not
    itself start with a separator. *)
Theorem fromRelative_leading_separator np (relative : string)
    (isFolder_ : bool) (vault : Vault) :
  JS.startsWith relative "/" = false ->
  JupyterAbstractPath.fromRelative np ("/" +:+ relative) isFolder_ vault
  = JupyterAbstractPath.fromRelative np relative isFolder_ vault.
Proof.
  intros H. rewrite (vault_eta vault).
  destruct (adapter vault) as [root|]; [|reflexivity].
  rewrite !fromRelative_unfold, H.
  assert (JS.startsWith ("/" +:+ relative) "/" = true) as ->
    by (apply startsWith_iff; eauto).
  now rewrite substring_from_separator.
Qed.

Lemma fromRelative_leading_separator_witness :
  JupyterAbstractPath.fromRelative HostModel.normalizePath
    ("/" +:+ "Notes") true Sample.vault
  = JupyterAbstractPath.fromRelative HostModel.normalizePath
      "Notes" true Sample.vault.
Proof. apply fromRelative_leading_separator. reflexivity. Defined.

(** X4. One leading separator of the child segment does not matter to
    [append] either, on any receiver. *)
Theorem append_leading_separator np (x : JupyterAbstractPath)
    (childSegment : string) (isFolder_ : bool) :
  JS.startsWith childSegment "/" = false ->
  JupyterAbstractPath.append np x ("/" +:+ childSegment) isFolder_
  = JupyterAbstractPath.append np x childSegment isFolder_.
Proof.
  intros H. unfold JupyterAbstractPath.append. rewrite H.
  assert (JS.startsWith ("/" +:+ childSegment) "/" = true) as ->
    by (apply startsWith_iff; eauto).
  now rewrite substring_from_separator.
Qed.

Lemma append_leading_separator_witness :
  JupyterAbstractPath.append HostModel.normalizePath Sample.notes_folder
    ("/" +:+ "a.ipynb") false
  = JupyterAbstractPath.append HostModel.normalizePath Sample.notes_folder
      "a.ipynb" false.
Proof. apply append_leading_separator. reflexivity. Defined.

(** X5. The free function [inVault] is a test on strings only: with a
    root given it never throws and answers true exactly for the paths
    that extend the root, so a path that extends a path of the vault is
    in the vault, the root itself is, and with the empty root every path
    is; an instance is tested through its absolute path. Without a root
    it tests against the root of the vault and throws only when that is
    not available. *)
Theorem inVault_is_a_prefix_test (p : string + JupyterAbstractPath)
    (vault : Vault) (root : string) :
  let s := match p with
           | inl s => s
           | inr x => JupyterAbstractPath.getAbsolutePath x
           end in
  (exists b, inVault p vault (Some root) = Ok b
             /\ (b = true <-> exists u, s = root +:+ u))
  /\ (forall u, inVault (inl (root +:+ u)) vault (Some root) = Ok true)
  /\ inVault p vault (Some "") = Ok true
  /\ (adapter vault = FileSystemAdapter root ->
      inVault p vault None = inVault p vault (Some root))
  /\ (adapter vault = OtherAdapter ->
      inVault p vault None = Throw InvalidEnvironment).
Proof.
  intros s. split; [|split; [|split; [|split]]].
  - exists (JS.startsWith s root). split.
    + now destruct p.
    + apply startsWith_iff.
  - intros u. unfold inVault. simpl.
    assert (JS.startsWith (root +:+ u) root = true) as ->
      by (apply startsWith_iff; eauto).
    reflexivity.
  - unfold inVault. simpl. unfold JS.startsWith.
    now rewrite prefix_empty.
  - intros H. unfold inVault, getVaultRootPath. rewrite H. reflexivity.
  - intros H. unfold inVault, getVaultRootPath. rewrite H. reflexivity.
Qed.

(** X6. On a value that came out of the constructor the getter
    [getRelativePath] returns the stored field: its test of the
    in-vault flag never changes the answer. *)
Theorem getRelativePath_is_the_field np (x : JupyterAbstractPath) :
  JupyterAbstractPath.constructed np x ->
  JupyterAbstractPath.getRelativePath x = relativePath x.
Proof.
  intros (a & r & f & v & H).
  destruct (constructor_flags _ _ _ _ _ _ H) as [_ Hv].
  destruct (constructor_relative _ _ _ _ _ _ H) as [_ Hn].
  unfold JupyterAbstractPath.getRelativePath,
    JupyterAbstractPath.inVault in *.
  destruct (isInVault x); [reflexivity|].
  subst v. now rewrite Hn.
Qed.

Lemma getRelativePath_is_the_field_witness :
  JupyterAbstractPath.getRelativePath Sample.notes_folder
  = relativePath Sample.notes_folder.
Proof.
  apply (getRelativePath_is_the_field HostModel.normalizePath).
  exact notes_folder_constructed.
Defined.

(** *** The last character of a string *)

Lemma app_last_inj (u v : string) (a b : ascii) :
  u +:+ String a "" = v +:+ String b "" -> u = v /\ a = b.
Proof.
  revert v; induction u as [|c u IH]; intros [|d v] H; simpl in H.
  - now injection H.
  - injection H as -> H. destruct v; discriminate.
  - injection H as -> H. destruct u; discriminate.
  - injection H as -> H. destruct (IH _ H) as [-> ->]. auto.
Qed.

Lemma string_last_cases (s : string) :
  s = "" \/ exists u c, s = u +:+ String c "".
Proof.
  induction s as [|a s IH]; [now left | right].
  destruct IH as [-> | (u & c & ->)].
  - exists "", a. reflexivity.
  - exists (String a u), c. reflexivity.
Qed.

Lemma endsWith_last (u : string) (c : ascii) :
  JS.endsWith (u +:+ String c "") "/" = Ascii.eqb c "/".
Proof.
  destruct (Ascii.eqb_spec c "/") as [-> | Hc].
  - apply endsWith_app.
  - destruct (JS.endsWith (u +:+ String c "") "/") eqn:E; [|reflexivity].
    apply endsWith_inv in E as [w E].
    apply app_last_inj in E as [_ E]. contradiction.
Qed.

Lemma endsWith_app_nonempty (s t : string) :
  t <> "" -> JS.endsWith (s +:+ t) "/" = JS.endsWith t "/".
Proof.
  intros Ht. destruct (string_last_cases t) as [-> | (u & c & ->)];
    [contradiction|].
  rewrite <- string_app_assoc. now rewrite !endsWith_last.
Qed.

Lemma endsWith_doubled (u : string) :
  JS.endsWith (u +:+ "/") "//" = JS.endsWith u "/".
Proof.
  destruct (JS.endsWith u "/") eqn:E.
  - apply endsWith_inv in E as [w ->]. rewrite string_app_assoc.
    exact (endsWith_app w "//").
  - destruct (JS.endsWith (u +:+ "/") "//") eqn:E'; [|reflexivity].
    apply endsWith_inv in E' as [w E'].
    change (w +:+ "//") with (w +:+ "/" +:+ "/") in E'.
    rewrite <- string_app_assoc in E'.
    apply app_last_inj in E' as [-> _].
    rewrite endsWith_app in E. discriminate.
Qed.

(** X7. The relative path after [append], whatever the host: for a
    directory [x] of the vault with relative path [r] and a child
    segment [c] that does not start with a separator, the new relative
    path is [r ++ c] with a separator added at the end unless there is
    one when a directory is asked for, and [r ++ c] itself when a file
    is asked for and [c] is not empty and does not end with a
    separator. *)
Theorem append_relative_path np (x : JupyterAbstractPath) (r c : string)
    (isFolder_ : bool) :
  JupyterAbstractPath.isFolder x = true ->
  JupyterAbstractPath.getRelativePath x = Some r ->
  JS.startsWith c "/" = false ->
  exists y,
    JupyterAbstractPath.append np x c isFolder_ = Ok y
    /\ (isFolder_ = true ->
        JupyterAbstractPath.getRelativePath y
        = Some (if JS.endsWith (r +:+ c) "/" then r +:+ c
                else (r +:+ c) +:+ "/"))
    /\ (isFolder_ = false -> c <> "" -> JS.endsWith c "/" = false ->
        JupyterAbstractPath.getRelativePath y = Some (r +:+ c)).
Proof.
  intros Hd Hr Hc.
  assert (isInVault x = true /\ relativePath x = Some r) as [Hv Hx].
  { unfold JupyterAbstractPath.getRelativePath in Hr.
    destruct (isInVault x); [auto | discriminate]. }
  rewrite append_unfold by assumption. rewrite Hc. cbv zeta.
  unfold JupyterAbstractPath.inVault. rewrite Hv, Hx.
  unfold JupyterAbstractPath.constructor,
    JupyterAbstractPath.getRelativePath. simpl.
  eexists. split; [reflexivity|]. simpl. split.
  - intros ->. simpl. now destruct (JS.endsWith (r +:+ c) "/").
  - intros -> Hne He. simpl.
    now rewrite (endsWith_app_nonempty r c Hne), He.
Qed.

Lemma append_relative_path_witness :
  JupyterAbstractPath.getRelativePath Sample.notes_folder = Some "Notes/"
  /\ exists y,
       JupyterAbstractPath.append HostModel.normalizePath
         Sample.notes_folder "a.ipynb" false = Ok y
       /\ JupyterAbstractPath.getRelativePath y
          = Some ("Notes/" +:+ "a.ipynb").
Proof.
  split; [reflexivity|].
  destruct (append_relative_path HostModel.normalizePath
              Sample.notes_folder "Notes/" "a.ipynb" false)
    as (y & Hy & _ & Hf); try reflexivity.
  exists y. split; [exact Hy|].
  apply Hf; [reflexivity | discriminate | reflexivity].
Defined.

(** X8. The trailing separator of the absolute path. When what
    [normalizePath] returns does not end with two separators, the
    absolute path of a directory ends with exactly one separator and
    the absolute path of a file with none. *)
Theorem absolute_path_trailing_separator np (absolute : string)
    (relative : option string) (isFolder_ isInVault_ : bool)
    (x : JupyterAbstractPath) :
  JupyterAbstractPath.constructor np absolute relative isFolder_ isInVault_
  = Ok x ->
  JS.endsWith (np absolute) "//" = false ->
  (isFolder_ = true ->
   JS.endsWith (JupyterAbstractPath.getAbsolutePath x) "/" = true
   /\ JS.endsWith (JupyterAbstractPath.getAbsolutePath x) "//" = false)
  /\ (isFolder_ = false ->
      JS.endsWith (JupyterAbstractPath.getAbsolutePath x) "/" = false).
Proof.
  intros H Hn. apply constructor_absolute in H.
  unfold JupyterAbstractPath.getAbsolutePath. rewrite H. clear H.
  split; intros ->; cbn [andb negb].
  - destruct (JS.endsWith (np absolute) "/") eqn:E; cbn [negb].
    + auto.
    + split; [apply endsWith_app|]. now rewrite endsWith_doubled.
  - destruct (JS.endsWith (np absolute) "/") eqn:E; [|exact E].
    apply endsWith_inv in E as [u E]. rewrite E in *.
    rewrite (substring_drop_last u "/").
    now rewrite endsWith_doubled in Hn.
Qed.

Lemma absolute_path_trailing_separator_witness :
  JS.endsWith (HostModel.normalizePath "/vault//Notes//") "//" = false
  /\ JS.endsWith
       (JupyterAbstractPath.getAbsolutePath
          {| absolutePath := "/vault/Notes"; relativePath := None;
             isDirectory := false; isInVault := false |}) "/" = false.
Proof.
  split; [reflexivity|].
  apply (absolute_path_trailing_separator HostModel.normalizePath
           "/vault//Notes//" None false false); reflexivity.
Defined.

(** ** The default file name of a notebook *)

Lemma occurs_app (c : ascii) (s t : string) :
  occurs c (s +:+ t) = occurs c s || occurs c t.
Proof.
  induction s as [|a s IH]; simpl; [reflexivity|].
  now rewrite IH, orb_assoc.
Qed.

(** The decimal digits are the only characters of a printed number. *)
Lemma occurs_string_of_uint (c : ascii) (d : Decimal.uint) :
  occurs c "0123456789" = false ->
  occurs c (NilEmpty.string_of_uint d) = false.
Proof.
  intros H. simpl in H. repeat (apply orb_false_elim in H as [? H]).
  induction d; simpl; rewrite ?IHd; auto using orb_false_intro.
Qed.

Lemma occurs_String_ (c : ascii) (n : nat) :
  occurs c "0123456789" = false ->
  occurs c (IpynbViewer.String_ n) = false.
Proof.
  intros H. unfold IpynbViewer.String_, NilZero.string_of_uint.
  destruct (Nat.to_uint n) eqn:E;
    try (rewrite <- E; now apply occurs_string_of_uint).
  simpl in *. repeat (apply orb_false_elim in H as [? H]).
  auto using orb_false_intro.
Qed.

Lemma occurs_replicate_char (c a : ascii) (n : nat) :
  Ascii.eqb a c = false -> occurs c (IpynbViewer.replicate_char n a) = false.
Proof. intros H. induction n; simpl; [reflexivity | now rewrite H]. Qed.

Lemma occurs_padStart (c : ascii) (n : nat) :
  occurs c "0123456789" = false ->
  occurs c (IpynbViewer.padStart (IpynbViewer.String_ n) 2 "0") = false.
Proof.
  intros H. unfold IpynbViewer.padStart.
  rewrite occurs_app, occurs_String_ by assumption.
  rewrite occurs_replicate_char; [reflexivity|].
  simpl in H. now apply orb_false_elim in H as [? _].
Qed.

(** A character that is no digit and none of the fixed characters of
    the name does not occur in it. *)
Lemma occurs_filename (c : ascii) (now : IpynbViewer.Date) :
  occurs c "0123456789" = false ->
  occurs c "Jupyter Notebook -.ipynb" = false ->
  occurs c (IpynbViewer.getDefaultNotebookFilename now) = false.
Proof.
  intros Hd Hc. unfold IpynbViewer.getDefaultNotebookFilename. cbv zeta.
  rewrite !occurs_app, !occurs_padStart, occurs_String_ by assumption.
  simpl in Hc. repeat (apply orb_false_elim in Hc as [? Hc]).
  simpl. repeat (apply orb_false_intro; auto).
Qed.

(** X9. Whatever the clock shows, the default file name starts with
    [Jupyter Notebook ], ends with [.ipynb] and contains no separator,
    neither ["/"] nor a backslash: the name never leads into another
    folder. *)
Theorem default_filename_shape (now : IpynbViewer.Date) :
  JS.startsWith (IpynbViewer.getDefaultNotebookFilename now)
    "Jupyter Notebook " = true
  /\ JS.endsWith (IpynbViewer.getDefaultNotebookFilename now) ".ipynb" = true
  /\ occurs "/" (IpynbViewer.getDefaultNotebookFilename now) = false
  /\ occurs "\" (IpynbViewer.getDefaultNotebookFilename now) = false.
Proof.
  split; [|split; [|split]].
  - apply startsWith_iff. eexists. reflexivity.
  - unfold IpynbViewer.getDefaultNotebookFilename. cbv zeta.
    rewrite <- !string_app_assoc. apply endsWith_app.
  - now apply occurs_filename.
  - now apply occurs_filename.
Qed.

Lemma split_at_char (c : ascii) (s1 s2 t1 t2 : string) :
  occurs c s1 = false -> occurs c s2 = false ->
  s1 +:+ String c "" +:+ t1 = s2 +:+ String c "" +:+ t2 ->
  s1 = s2 /\ t1 = t2.
Proof.
  revert s2; induction s1 as [|a s1 IH]; intros [|b s2] H1 H2 H;
    simpl in *.
  - injection H as ->. auto.
  - injection H as <- _. rewrite Ascii.eqb_refl in H2. discriminate.
  - injection H as -> _. rewrite Ascii.eqb_refl in H1. discriminate.
  - injection H as -> H.
    apply orb_false_elim in H1 as [_ H1].
    apply orb_false_elim in H2 as [_ H2].
    destruct (IH _ H1 H2 H) as [-> ->]. auto.
Qed.

Lemma app_inj_length (s1 s2 t1 t2 : string) :
  String.length s1 = String.length s2 ->
  s1 +:+ t1 = s2 +:+ t2 -> s1 = s2 /\ t1 = t2.
Proof.
  revert s2; induction s1 as [|a s1 IH]; intros [|b s2] Hl H;
    simpl in *; try discriminate.
  - auto.
  - injection H as -> H. injection Hl as Hl.
    destruct (IH _ Hl H) as [-> ->]. auto.
Qed.

(** A printed number reads back as the number. *)
Lemma String__read_back (n : nat) :
  option_map Nat.of_uint (NilZero.uint_of_string (IpynbViewer.String_ n))
  = Some n.
Proof.
  unfold IpynbViewer.String_.
  destruct (NilZero.usu_gen (Nat.to_uint n)) as [-> | H]; simpl.
  - now rewrite Unsigned.of_to.
  - destruct (Nat.to_uint n) eqn:E;
      try (rewrite NilZero.usu in H by discriminate; injection H as H;
           rewrite <- (Unsigned.of_to n), E, H; reflexivity).
    rewrite <- (Unsigned.of_to n), E. reflexivity.
Qed.

Lemma String__inj (n m : nat) :
  IpynbViewer.String_ n = IpynbViewer.String_ m -> n = m.
Proof.
  intros H. pose proof (String__read_back n) as Hn.
  rewrite H, String__read_back in Hn. now injection Hn.
Qed.

(** The fields of two digits, checked for every number below 100. *)
Lemma two_digits_table :
  forallb
    (fun n =>
       (String.length
          (IpynbViewer.padStart (IpynbViewer.String_ n) 2 "0") =? 2)%nat
       && match NilEmpty.uint_of_string
                  (IpynbViewer.padStart (IpynbViewer.String_ n) 2 "0") with
          | Some d => (Nat.of_uint d =? n)%nat
          | None => false
          end)
    (seq 0 100) = true.
Proof. vm_compute. reflexivity. Qed.

Lemma two_digits (n : nat) :
  (n < 100)%nat ->
  String.length (IpynbViewer.padStart (IpynbViewer.String_ n) 2 "0") = 2%nat
  /\ option_map Nat.of_uint
       (NilEmpty.uint_of_string
          (IpynbViewer.padStart (IpynbViewer.String_ n) 2 "0")) = Some n.
Proof.
  intros Hn. pose proof two_digits_table as H.
  rewrite forallb_forall in H. specialize (H n).
  destruct (andb_prop _ _ (H ltac:(apply in_seq; lia))) as [Hl Hd].
  apply Nat.eqb_eq in Hl. split; [exact Hl|].
  destruct (NilEmpty.uint_of_string _); [|discriminate].
  apply Nat.eqb_eq in Hd. simpl. now rewrite Hd.
Qed.

Lemma two_digits_length (n : nat) :
  (n < 100)%nat ->
  String.length (IpynbViewer.padStart (IpynbViewer.String_ n) 2 "0") = 2%nat.
Proof. intros Hn. now apply two_digits. Qed.

Lemma two_digits_inj (n m : nat) :
  (n < 100)%nat -> (m < 100)%nat ->
  IpynbViewer.padStart (IpynbViewer.String_ n) 2 "0"
  = IpynbViewer.padStart (IpynbViewer.String_ m) 2 "0" ->
  n = m.
Proof.
  intros Hn Hm H.
  destruct (two_digits n Hn) as [_ Dn].
  destruct (two_digits m Hm) as [_ Dm].
  rewrite H, Dm in Dn. now injection Dn.
Qed.

(** X10. Two clocks that differ, each within the ranges of the getters,
    give different default file names: the year, month, day, hour,
    minute and second can be read back from the name. *)
Theorem default_filename_injective (d1 d2 : IpynbViewer.Date) :
  clock_ranges d1 -> clock_ranges d2 ->
  IpynbViewer.getDefaultNotebookFilename d1
  = IpynbViewer.getDefaultNotebookFilename d2 ->
  d1 = d2.
Proof.
  intros (Hm1 & Hd1 & Hh1 & Hi1 & Hs1) (Hm2 & Hd2 & Hh2 & Hi2 & Hs2) H.
  unfold IpynbViewer.getDefaultNotebookFilename in H. cbv zeta in H.
  apply (inj (String.app _)) in H.
  apply split_at_char in H as [Hy H];
    [|now apply occurs_String_..].
  apply String__inj in Hy.
  apply app_inj_length in H as [Hmo H];
    [|rewrite !two_digits_length by lia; reflexivity].
  apply two_digits_inj in Hmo; [|lia..].
  apply (inj (String.app _)) in H.
  apply app_inj_length in H as [Hda H];
    [|rewrite !two_digits_length by lia; reflexivity].
  apply two_digits_inj in Hda; [|lia..].
  apply (inj (String.app _)) in H.
  apply app_inj_length in H as [Hho H];
    [|rewrite !two_digits_length by lia; reflexivity].
  apply two_digits_inj in Hho; [|lia..].
  apply (inj (String.app _)) in H.
  apply app_inj_length in H as [Hmi H];
    [|rewrite !two_digits_length by lia; reflexivity].
  apply two_digits_inj in Hmi; [|lia..].
  apply (inj (String.app _)) in H.
  apply app_inj_length in H as [Hse _];
    [|rewrite !two_digits_length by lia; reflexivity].
  apply two_digits_inj in Hse; [|lia..].
  destruct d1, d2; simpl in *. f_equal; lia.
Qed.

Lemma default_filename_injective_witness :
  clock_ranges Sample.now
  /\ Sample.now
     = {| IpynbViewer.getFullYear := 2024; IpynbViewer.getMonth := 0;
          IpynbViewer.getDate := 5; IpynbViewer.getHours := 13;
          IpynbViewer.getMinutes := 7; IpynbViewer.getSeconds := 59 |}.
Proof.
  assert (clock_ranges Sample.now) as H
    by (unfold clock_ranges; simpl; lia).
  split; [exact H|].
  apply default_filename_injective; [exact H | exact H | reflexivity].
Defined.

(** ** Further properties of [createJupyterNotebook] *)

(** The default file name as a child segment. *)
Lemma default_filename_segment (now : IpynbViewer.Date) :
  JS.startsWith (IpynbViewer.getDefaultNotebookFilename now) "/" = false
  /\ IpynbViewer.getDefaultNotebookFilename now <> ""
  /\ JS.endsWith (IpynbViewer.getDefaultNotebookFilename now) "/" = false.
Proof.
  split; [|split].
  - destruct (JS.startsWith _ "/") eqn:E; [|reflexivity].
    apply startsWith_iff in E as [u E]. discriminate E.
  - discriminate.
  - unfold IpynbViewer.getDefaultNotebookFilename. cbv zeta.
    rewrite <- !string_app_assoc.
    now rewrite endsWith_app_nonempty by discriminate.
Qed.

(** Appending a file segment to a directory of the vault. *)
Lemma append_file_segment np (x : JupyterAbstractPath) (r c : string) :
  JupyterAbstractPath.isFolder x = true ->
  JupyterAbstractPath.getRelativePath x = Some r ->
  JS.startsWith c "/" = false -> c <> "" -> JS.endsWith c "/" = false ->
  exists y,
    JupyterAbstractPath.append np x c false = Ok y
    /\ JupyterAbstractPath.getRelativePath y = Some (r +:+ c).
Proof.
  intros Hd Hr Hc Hne He.
  assert (isInVault x = true /\ relativePath x = Some r) as [Hv Hx].
  { unfold JupyterAbstractPath.getRelativePath in Hr.
    destruct (isInVault x); [auto | discriminate]. }
  rewrite append_unfold by assumption. rewrite Hc. cbv zeta.
  unfold JupyterAbstractPath.inVault. rewrite Hv, Hx.
  unfold JupyterAbstractPath.constructor,
    JupyterAbstractPath.getRelativePath. simpl.
  eexists. split; [reflexivity|]. simpl.
  now rewrite (endsWith_app_nonempty r c Hne), He.
Qed.

Lemma getRelativePath_in_vault (x : JupyterAbstractPath) (r : string) :
  JupyterAbstractPath.getRelativePath x = Some r ->
  JupyterAbstractPath.inVault x = true.
Proof.
  unfold JupyterAbstractPath.getRelativePath, JupyterAbstractPath.inVault.
  destruct (isInVault x); [reflexivity | discriminate].
Qed.

(** The run of [createJupyterNotebook] once the path of the new file is
    known. *)
Lemma create_run np (now : IpynbViewer.Date) (folder file : JupyterAbstractPath)
    (path : string) (w : IpynbViewer.World) :
  JupyterAbstractPath.inVault folder = true ->
  JupyterAbstractPath.append np folder
    (IpynbViewer.getDefaultNotebookFilename now) false = Ok file ->
  JupyterAbstractPath.getRelativePath file = Some path ->
  IpynbViewer.createJupyterNotebook np now folder w
  = (Ok tt,
     {| IpynbViewer.files :=
          <[path := IpynbViewer.minimal_notebook]> (IpynbViewer.files w);
        IpynbViewer.calls :=
          IpynbViewer.OpenFile path
            :: IpynbViewer.GetLeaf "tab"
            :: IpynbViewer.AdapterWrite path IpynbViewer.minimal_notebook
            :: (if bool_decide (is_Some (IpynbViewer.files w !! path))
                then [IpynbViewer.NewNotice (IpynbViewer.exists_notice path)]
                else [])
            ++ IpynbViewer.AdapterExists path :: IpynbViewer.calls w |}).
Proof.
  intros Hv Hfile Hget.
  unfold IpynbViewer.createJupyterNotebook. rewrite Hv. simpl.
  unfold IpynbViewer.bind at 1. unfold IpynbViewer.lift. rewrite Hfile.
  unfold IpynbViewer.bind at 1. rewrite Hget. simpl.
  unfold IpynbViewer.bind at 1. simpl.
  now destruct (bool_decide (is_Some (IpynbViewer.files w !! path))).
Qed.

(** The run for a directory of the vault with relative path [r]. *)
Lemma create_in_directory np (now : IpynbViewer.Date)
    (folder : JupyterAbstractPath) (r : string) (w : IpynbViewer.World) :
  JupyterAbstractPath.isFolder folder = true ->
  JupyterAbstractPath.getRelativePath folder = Some r ->
  exists w',
    IpynbViewer.createJupyterNotebook np now folder w = (Ok tt, w')
    /\ IpynbViewer.files w'
       = <[r +:+ IpynbViewer.getDefaultNotebookFilename now
           := IpynbViewer.minimal_notebook]> (IpynbViewer.files w)
    /\ IpynbViewer.calls w'
       = IpynbViewer.OpenFile
           (r +:+ IpynbViewer.getDefaultNotebookFilename now)
           :: IpynbViewer.GetLeaf "tab"
           :: IpynbViewer.AdapterWrite
                (r +:+ IpynbViewer.getDefaultNotebookFilename now)
                IpynbViewer.minimal_notebook
           :: (if bool_decide
                    (is_Some
                       (IpynbViewer.files w
                          !! (r +:+ IpynbViewer.getDefaultNotebookFilename
                                      now)))
               then [IpynbViewer.NewNotice
                       (IpynbViewer.exists_notice
                          (r +:+ IpynbViewer.getDefaultNotebookFilename
                                   now))]
               else [])
           ++ IpynbViewer.AdapterExists
                (r +:+ IpynbViewer.getDefaultNotebookFilename now)
           :: IpynbViewer.calls w.
Proof.
  intros Hd Hr.
  destruct (default_filename_segment now) as (Hs & Hne & He).
  destruct (append_file_segment np folder r _ Hd Hr Hs Hne He)
    as (file & Hfile & Hpath).
  eexists. split.
  - eapply create_run; eauto using getRelativePath_in_vault.
  - split; reflexivity.
Qed.

(** X11. For a directory of the vault with relative path [r], whatever
    the host's [normalizePath], [createJupyterNotebook] succeeds and
    writes the minimal notebook to [r] followed by the default file
    name; every other path of the vault keeps what it had, and no file
    is removed. *)
Theorem create_target_and_frame np (now : IpynbViewer.Date)
    (folder : JupyterAbstractPath) (r : string) (w : IpynbViewer.World) :
  JupyterAbstractPath.isFolder folder = true ->
  JupyterAbstractPath.getRelativePath folder = Some r ->
  exists w',
    IpynbViewer.createJupyterNotebook np now folder w = (Ok tt, w')
    /\ IpynbViewer.files w'
         !! (r +:+ IpynbViewer.getDefaultNotebookFilename now)
       = Some IpynbViewer.minimal_notebook
    /\ (forall p,
          p <> r +:+ IpynbViewer.getDefaultNotebookFilename now ->
          IpynbViewer.files w' !! p = IpynbViewer.files w !! p)
    /\ dom (IpynbViewer.files w) ⊆ dom (IpynbViewer.files w').
Proof.
  intros Hd Hr.
  destruct (create_in_directory np now folder r w Hd Hr)
    as (w' & Hrun & Hfiles & _).
  exists w'. split; [exact Hrun|]. rewrite Hfiles.
  split; [apply lookup_insert_eq|]. split.
  - intros p Hp. now rewrite lookup_insert_ne.
  - rewrite dom_insert_L. set_solver.
Qed.

Lemma create_target_and_frame_witness :
  JupyterAbstractPath.getRelativePath Sample.notes_folder = Some "Notes/"
  /\ exists w',
       IpynbViewer.createJupyterNotebook HostModel.normalizePath Sample.now
         Sample.notes_folder Sample.world = (Ok tt, w')
       /\ IpynbViewer.files w' !! "Notes/a.ipynb" = Some "{}".
Proof.
  split; [reflexivity|].
  destruct (create_target_and_frame HostModel.normalizePath Sample.now
              Sample.notes_folder "Notes/" Sample.world)
    as (w' & Hrun & _ & Hframe & _); try reflexivity.
  exists w'. split; [exact Hrun|].
  rewrite Hframe; [reflexivity | discriminate].
Defined.

(** X12. Handed a file of the vault instead of a folder,
    [createJupyterNotebook] throws the error of [append] before any call
    into the host: the vault is as it was. *)
Theorem create_under_a_file_fails np (now : IpynbViewer.Date)
    (folder : JupyterAbstractPath) (w : IpynbViewer.World) :
  JupyterAbstractPath.inVault folder = true ->
  JupyterAbstractPath.isFolder folder = false ->
  IpynbViewer.createJupyterNotebook np now folder w = (Throw AppendToFile, w).
Proof.
  intros Hv Hd. unfold IpynbViewer.createJupyterNotebook. rewrite Hv. simpl.
  unfold IpynbViewer.bind at 1, IpynbViewer.lift.
  unfold JupyterAbstractPath.append. rewrite Hd. reflexivity.
Qed.

Lemma create_under_a_file_fails_witness :
  IpynbViewer.createJupyterNotebook HostModel.normalizePath Sample.now
    Sample.a_file Sample.world = (Throw AppendToFile, Sample.world).
Proof. apply create_under_a_file_fails; reflexivity. Defined.

(** X13. Creating a notebook twice within the same second of the clock:
    the second run finds the file of the first, shows the notice, and
    writes the same document again, so the files of the vault are as
    after the first run. *)
Theorem create_twice_same_second np (now : IpynbViewer.Date)
    (folder : JupyterAbstractPath) (r : string) (w : IpynbViewer.World) :
  JupyterAbstractPath.isFolder folder = true ->
  JupyterAbstractPath.getRelativePath folder = Some r ->
  exists w1 w2,
    IpynbViewer.createJupyterNotebook np now folder w = (Ok tt, w1)
    /\ IpynbViewer.createJupyterNotebook np now folder w1 = (Ok tt, w2)
    /\ IpynbViewer.files w2 = IpynbViewer.files w1
    /\ IpynbViewer.calls w2
       = IpynbViewer.OpenFile
           (r +:+ IpynbViewer.getDefaultNotebookFilename now)
           :: IpynbViewer.GetLeaf "tab"
           :: IpynbViewer.AdapterWrite
                (r +:+ IpynbViewer.getDefaultNotebookFilename now)
                IpynbViewer.minimal_notebook
           :: IpynbViewer.NewNotice
                (IpynbViewer.exists_notice
                   (r +:+ IpynbViewer.getDefaultNotebookFilename now))
           :: IpynbViewer.AdapterExists
                (r +:+ IpynbViewer.getDefaultNotebookFilename now)
           :: IpynbViewer.calls w1.
Proof.
  intros Hd Hr.
  destruct (create_in_directory np now folder r w Hd Hr)
    as (w1 & Hrun1 & Hfiles1 & _).
  destruct (create_in_directory np now folder r w1 Hd Hr)
    as (w2 & Hrun2 & Hfiles2 & Hcalls2).
  exists w1, w2. split; [exact Hrun1|]. split; [exact Hrun2|].
  rewrite Hfiles2, Hcalls2, Hfiles1. split.
  - apply insert_insert_eq.
  - rewrite lookup_insert_eq.
    rewrite bool_decide_eq_true_2 by eauto. reflexivity.
Qed.

Lemma create_twice_same_second_witness :
  JupyterAbstractPath.getRelativePath Sample.notes_folder = Some "Notes/"
  /\ exists w1 w2,
       IpynbViewer.createJupyterNotebook HostModel.normalizePath Sample.now
         Sample.notes_folder Sample.world = (Ok tt, w1)
       /\ IpynbViewer.createJupyterNotebook HostModel.normalizePath
            Sample.now Sample.notes_folder w1 = (Ok tt, w2)
       /\ IpynbViewer.files w2 = IpynbViewer.files w1.
Proof.
  split; [reflexivity|].
  destruct (create_twice_same_second HostModel.normalizePath Sample.now
              Sample.notes_folder "Notes/" Sample.world)
    as (w1 & w2 & H1 & H2 & H3 & _); try reflexivity.
  exists w1, w2. auto.
Defined.

(** ** The command and the context menu *)

(** The directory that [fromRelative] builds: its relative path is the
    given one less a leading separator, closed by a separator. *)
Lemma fromRelative_directory np (relative root : string) :
  exists x,
    JupyterAbstractPath.fromRelative np relative true
      {| adapter := FileSystemAdapter root |} = Ok x
    /\ JupyterAbstractPath.isFolder x = true
    /\ JupyterAbstractPath.getRelativePath x
       = Some (let r := if JS.startsWith relative "/"
                        then JS.substring_from relative 1 else relative in
               if JS.endsWith r "/" then r else r +:+ "/").
Proof.
  rewrite fromRelative_unfold.
  unfold JupyterAbstractPath.constructor,
    JupyterAbstractPath.getRelativePath. simpl.
  eexists. split; [reflexivity|]. simpl. split; [reflexivity|].
  now destruct (JS.endsWith _ "/").
Qed.

(** X14. The command [jupyter-create-notebook]: in a vault with a
    [FileSystemAdapter] it writes the minimal notebook to the path made
    of a separator and the default file name, and leaves every other
    file alone; with another adapter it throws the invalid-environment
    error and calls nothing of the host. *)
Theorem command_creates_at_root np (vault : Vault) (now : IpynbViewer.Date)
    (w : IpynbViewer.World) :
  (forall root, adapter vault = FileSystemAdapter root ->
     exists w',
       Plugin.command_callback np vault now w = (Ok tt, w')
       /\ IpynbViewer.files w'
          = <["/" +:+ IpynbViewer.getDefaultNotebookFilename now
              := IpynbViewer.minimal_notebook]> (IpynbViewer.files w))
  /\ (adapter vault = OtherAdapter ->
      Plugin.command_callback np vault now w
      = (Throw InvalidEnvironment, w)).
Proof.
  rewrite (vault_eta vault). simpl adapter. split.
  - intros root ->.
    destruct (fromRelative_directory np "/" root) as (x & Hx & Hd & Hr).
    assert (JS.startsWith "/" "/" = true) as E by reflexivity.
    rewrite E in Hr.
    change (JS.substring_from "/" 1) with "" in Hr. cbv zeta in Hr.
    change (if JS.endsWith "" "/" then "" else "" +:+ "/") with "/" in Hr.
    destruct (create_in_directory np now x "/" w Hd Hr)
      as (w' & Hrun & Hfiles & _).
    exists w'. split; [|exact Hfiles].
    unfold Plugin.command_callback, IpynbViewer.bind, IpynbViewer.lift.
    rewrite Hx. exact Hrun.
  - intros ->. reflexivity.
Qed.

(** X15. The file menu: for a file the menu is left as it is; for a
    folder one item [New Jupyter notebook] is added at the end, and in a
    vault with a [FileSystemAdapter] a click on it writes the minimal
    notebook into that folder, at the folder's path (less a leading
    separator, closed by a separator) followed by the default file
    name. *)
Theorem folder_menu_item_creates_inside np (vault : Vault) (root : string)
    (menu : list Plugin.MenuItem) (file : Obsidian.TAbstractFile) :
  adapter vault = FileSystemAdapter root ->
  match file with
  | Obsidian.File _ =>
      Plugin.onFileContextMenuOpened np vault menu file = menu
  | Obsidian.Folder folder =>
      exists item,
        Plugin.onFileContextMenuOpened np vault menu file = menu ++ [item]
        /\ Plugin.title item = "New Jupyter notebook"
        /\ forall now w,
             exists w',
               Plugin.onClick item now w = (Ok tt, w')
               /\ IpynbViewer.files w'
                  = <[(let r := if JS.startsWith
                                     (Obsidian.folder_path folder) "/"
                                then JS.substring_from
                                       (Obsidian.folder_path folder) 1
                                else Obsidian.folder_path folder in
                       if JS.endsWith r "/" then r else r +:+ "/")
                      +:+ IpynbViewer.getDefaultNotebookFilename now
                      := IpynbViewer.minimal_notebook]>
                      (IpynbViewer.files w)
  end.
Proof.
  intros Hroot. rewrite (vault_eta vault), Hroot.
  destruct file as [f | folder]; [reflexivity|].
  eexists. split; [reflexivity|]. split; [reflexivity|].
  intros now w. simpl Plugin.onClick.
  destruct (fromRelative_directory np (Obsidian.folder_path folder) root)
    as (x & Hx & Hd & Hr).
  destruct (create_in_directory np now x _ w Hd Hr)
    as (w' & Hrun & Hfiles & _).
  exists w'. split; [|exact Hfiles].
  unfold IpynbViewer.bind, IpynbViewer.lift. rewrite Hx. exact Hrun.
Qed.

Lemma folder_menu_item_creates_inside_witness :
  exists item,
    Plugin.onFileContextMenuOpened HostModel.normalizePath Sample.vault []
      (Obsidian.Folder {| Obsidian.folder_path := "Notes" |}) = [item]
    /\ exists w',
         Plugin.onClick item Sample.now Sample.world = (Ok tt, w')
         /\ IpynbViewer.files w'
            = <["Notes/" +:+ IpynbViewer.getDefaultNotebookFilename Sample.now
                := IpynbViewer.minimal_notebook]>
                (IpynbViewer.files Sample.world).
Proof.
  destruct (folder_menu_item_creates_inside HostModel.normalizePath
              Sample.vault "/vault" []
              (Obsidian.Folder {| Obsidian.folder_path := "Notes" |})
              eq_refl)
    as (item & Hmenu & _ & Hclick).
  exists item. split; [exact Hmenu|].
  destruct (Hclick Sample.now Sample.world) as (w' & Hrun & Hfiles).
  exists w'. split; [exact Hrun | exact Hfiles].
Defined.

(** ** The settings *)

Lemma loadSettings_settings (st : Plugin.State) :
  Plugin.settings (Plugin.loadSettings st)
  = match Plugin.data st with
    | Some d => delete "__proto__" d ∪ Plugin.DEFAULT_SETTINGS
    | None => Plugin.DEFAULT_SETTINGS
    end.
Proof.
  unfold Plugin.loadSettings, Plugin.Object_assign. simpl.
  rewrite (right_id_L ∅ (∪)). now destruct (Plugin.data st).
Qed.

(** X16. [loadSettings] merges what [loadData] returns over the
    defaults, on the own keys of the settings: a key other than
    [__proto__] that is stored has the stored value, any other key has
    its default; a stored key [__proto__] is never copied, so the
    settings have no such own key; while nothing is stored the settings
    are the defaults; what is stored is left as it is. *)
Theorem loadSettings_merges_over_defaults (st : Plugin.State) (k : string) :
  (k <> "__proto__" ->
   Plugin.settings (Plugin.loadSettings st) !! k
   = match Plugin.data st ≫= (fun d => d !! k) with
     | Some v => Some v
     | None => Plugin.DEFAULT_SETTINGS !! k
     end)
  /\ Plugin.settings (Plugin.loadSettings st) !! "__proto__" = None
  /\ (Plugin.data st = None ->
      Plugin.settings (Plugin.loadSettings st) = Plugin.DEFAULT_SETTINGS)
  /\ Plugin.data (Plugin.loadSettings st) = Plugin.data st.
Proof.
  rewrite loadSettings_settings. split; [|split; [|split; [|reflexivity]]].
  - intros Hk. destruct (Plugin.data st) as [d|]; simpl; [|reflexivity].
    rewrite lookup_union, lookup_delete_ne by congruence.
    now destruct (d !! k), (Plugin.DEFAULT_SETTINGS !! k).
  - destruct (Plugin.data st) as [d|]; [|reflexivity].
    rewrite lookup_union, lookup_delete_eq. reflexivity.
  - now intros ->.
Qed.

Lemma loadSettings_merges_over_defaults_witness :
  Plugin.settings
    (Plugin.loadSettings
       {| Plugin.settings := ∅;
          Plugin.data :=
            Some {[ "mySetting" := Plugin.JString "mine" ]} |})
    !! "mySetting"
  = Some (Plugin.JString "mine").
Proof.
  destruct (loadSettings_merges_over_defaults
              {| Plugin.settings := ∅;
                 Plugin.data :=
                   Some {[ "mySetting" := Plugin.JString "mine" ]} |}
              "mySetting") as [H _].
  rewrite H by discriminate. reflexivity.
Defined.

(** ** The view *)

(** Unfolds the steps of the view's monad. *)
Ltac view_steps :=
  unfold EmbeddedJupyterView.onLoadFile,
    EmbeddedJupyterView.convertIpynbToHTML,
    EmbeddedJupyterView.bind, EmbeddedJupyterView.try_catch,
    EmbeddedJupyterView.ret, EmbeddedJupyterView.raise,
    EmbeddedJupyterView.console_write, EmbeddedJupyterView.set_openedFile,
    EmbeddedJupyterView.set_cacheFilePath, EmbeddedJupyterView.run_execSync,
    EmbeddedJupyterView.run_parse, EmbeddedJupyterView.adapter_read,
    EmbeddedJupyterView.createDiv, EmbeddedJupyterView.set_innerHTML,
    EmbeddedJupyterView.set_children, EmbeddedJupyterView.set_files;
  cbn [EmbeddedJupyterView.openedFile EmbeddedJupyterView.cacheFilePath
       EmbeddedJupyterView.children EmbeddedJupyterView.console
       EmbeddedJupyterView.basePath EmbeddedJupyterView.files].

(** Reads the fields of a view that is written out. *)
Ltac view_fields :=
  cbn [EmbeddedJupyterView.openedFile EmbeddedJupyterView.cacheFilePath
       EmbeddedJupyterView.children EmbeddedJupyterView.console
       EmbeddedJupyterView.basePath EmbeddedJupyterView.files
       fst snd app].

(** X18. [convertIpynbToHTML] returns the text that the adapter reads
    at the cache path of the file's base name once the converter has
    run without error; an error of the converter, or a cache file that
    cannot be read, is written to the console and thrown on as it is.
    In every case the files are what the converter left, the output
    path is kept in [cacheFilePath], and the content of the view is not
    touched. *)
Theorem convert_returns_or_rethrows
    (join : string -> string -> string)
    (execSync : string -> gmap string string
                -> option EmbeddedJupyterView.Thrown * gmap string string)
    (ipynbPath : string) (file : Obsidian.TFile)
    (v : EmbeddedJupyterView.View) :
  let output := join (EmbeddedJupyterView.basePath v +:+ "/.obsidian/cache/")
                     (Obsidian.basename file +:+ ".html") in
  let read_html_path :=
    "/.obsidian/cache/" +:+ Obsidian.basename file +:+ ".html" in
  let ran := execSync (EmbeddedJupyterView.nbconvert_command ipynbPath output)
                      (EmbeddedJupyterView.files v) in
  exists outcome v',
    EmbeddedJupyterView.convertIpynbToHTML join execSync ipynbPath file v
    = (outcome, v')
    /\ EmbeddedJupyterView.files v' = ran.2
    /\ EmbeddedJupyterView.cacheFilePath v' = Some output
    /\ EmbeddedJupyterView.children v' = EmbeddedJupyterView.children v
    /\ EmbeddedJupyterView.openedFile v' = EmbeddedJupyterView.openedFile v
    /\ (forall html,
          outcome = EmbeddedJupyterView.Returned html
          <-> ran.1 = None /\ ran.2 !! read_html_path = Some html)
    /\ (forall error,
          outcome = EmbeddedJupyterView.Raised error
          <-> ran.1 = Some error
              \/ (ran.1 = None /\ ran.2 !! read_html_path = None
                  /\ error = EmbeddedJupyterView.ReadFailed read_html_path))
    /\ EmbeddedJupyterView.console v'
       = match outcome with
         | EmbeddedJupyterView.Raised error =>
             [EmbeddedJupyterView.ErrorFailedToConvert error]
         | EmbeddedJupyterView.Returned _ => []
         end
         ++ EmbeddedJupyterView.LogString read_html_path
         :: EmbeddedJupyterView.LogString output
         :: EmbeddedJupyterView.LogFile file
         :: EmbeddedJupyterView.console v.
Proof.
  intros output read_html_path ran. subst output read_html_path ran.
  view_steps.
  destruct (execSync _ _) as [[error|] fs]; view_fields.
  - do 2 eexists. split; [reflexivity|]. view_fields.
    repeat (split; [reflexivity|]). split; [|split; [|reflexivity]].
    + intros html. split; [discriminate | intros [? _]; discriminate].
    + intros e. split.
      * intros [= <-]. now left.
      * intros [[= <-] | (? & _)]; [reflexivity | discriminate].
  - destruct (fs !! _) as [html|] eqn:E.
    + do 2 eexists. split; [reflexivity|]. view_fields.
      repeat (split; [reflexivity|]). split; [|split; [|reflexivity]].
      * intros h. split.
        -- intros [= <-]. auto.
        -- intros [_ [= <-]]. reflexivity.
      * intros e. split; [discriminate|].
        intros [? | (_ & ? & _)]; discriminate.
    + do 2 eexists. split; [reflexivity|]. view_fields.
      repeat (split; [reflexivity|]). split; [|split; [|reflexivity]].
      * intros h. split; [discriminate | intros [_ ?]; discriminate].
      * intros e. split.
        -- intros [= <-]. right. auto.
        -- intros [? | (_ & _ & ->)]; [discriminate | reflexivity].
Qed.

(** X19. [onLoadFile] never throws, whatever the converter, the adapter
    and the parser do: every error is caught. It always records the file
    as the opened one, so that the tab shows the name of the file, also
    when the file is no notebook or could not be converted. *)
Theorem onLoadFile_never_throws
    (join : string -> string -> string)
    (execSync : string -> gmap string string
                -> option EmbeddedJupyterView.Thrown * gmap string string)
    (parse : string -> EmbeddedJupyterView.Outcome string)
    (file : Obsidian.TFile) (v : EmbeddedJupyterView.View) :
  exists v',
    EmbeddedJupyterView.onLoadFile join execSync parse file v
    = (EmbeddedJupyterView.Returned tt, v')
    /\ EmbeddedJupyterView.openedFile v' = Some file
    /\ EmbeddedJupyterView.getDisplayText v' = Obsidian.name file
    /\ EmbeddedJupyterView.basePath v' = EmbeddedJupyterView.basePath v.
Proof.
  unfold EmbeddedJupyterView.getDisplayText. view_steps.
  destruct (String.eqb _ _).
  - destruct (execSync _ _) as [[error|] fs]; view_fields.
    + eexists. split; [reflexivity|]. repeat split.
    + destruct (fs !! _) as [html|]; [destruct (parse html)|];
        (eexists; split; [reflexivity|]; repeat split).
  - eexists. split; [reflexivity|]. repeat split.
Qed.

(** X20. For a file whose extension is not [ipynb], [onLoadFile] only
    records the file: the converter is not started, nothing is read or
    logged, and the content of the view stays. *)
Theorem onLoadFile_ignores_other_files
    (join : string -> string -> string)
    (execSync : string -> gmap string string
                -> option EmbeddedJupyterView.Thrown * gmap string string)
    (parse : string -> EmbeddedJupyterView.Outcome string)
    (file : Obsidian.TFile) (v : EmbeddedJupyterView.View) :
  Obsidian.extension file <> "ipynb" ->
  EmbeddedJupyterView.onLoadFile join execSync parse file v
  = (EmbeddedJupyterView.Returned tt,
     {| EmbeddedJupyterView.openedFile := Some file;
        EmbeddedJupyterView.cacheFilePath :=
          EmbeddedJupyterView.cacheFilePath v;
        EmbeddedJupyterView.children := EmbeddedJupyterView.children v;
        EmbeddedJupyterView.console := EmbeddedJupyterView.console v;
        EmbeddedJupyterView.basePath := EmbeddedJupyterView.basePath v;
        EmbeddedJupyterView.files := EmbeddedJupyterView.files v |}).
Proof.
  intros H. apply String.eqb_neq in H. view_steps. now rewrite H.
Qed.

Lemma onLoadFile_ignores_other_files_witness :
  EmbeddedJupyterView.onLoadFile SampleView.join SampleView.converter_ok
    SampleView.parse SampleView.note SampleView.view
  = (EmbeddedJupyterView.Returned tt,
     {| EmbeddedJupyterView.openedFile := Some SampleView.note;
        EmbeddedJupyterView.cacheFilePath := None;
        EmbeddedJupyterView.children := ["<p>before</p>"];
        EmbeddedJupyterView.console := [];
        EmbeddedJupyterView.basePath := "/vault";
        EmbeddedJupyterView.files := ∅ |}).
Proof.
  apply (onLoadFile_ignores_other_files SampleView.join
           SampleView.converter_ok SampleView.parse SampleView.note
           SampleView.view).
  discriminate.
Defined.

(** X21. When the conversion of a notebook fails, because the converter
    ends with an error or because the cache file cannot be read
    afterwards, [onLoadFile] adds nothing to the view and writes the
    error to the console twice, once where it is thrown on and once
    where it is caught. *)
Theorem onLoadFile_failed_conversion
    (join : string -> string -> string)
    (execSync : string -> gmap string string
                -> option EmbeddedJupyterView.Thrown * gmap string string)
    (parse : string -> EmbeddedJupyterView.Outcome string)
    (file : Obsidian.TFile) (v : EmbeddedJupyterView.View)
    (error : EmbeddedJupyterView.Thrown) :
  let filePath :=
    EmbeddedJupyterView.basePath v +:+ "/" +:+ Obsidian.path file in
  let output := join (EmbeddedJupyterView.basePath v +:+ "/.obsidian/cache/")
                     (Obsidian.basename file +:+ ".html") in
  let read_html_path :=
    "/.obsidian/cache/" +:+ Obsidian.basename file +:+ ".html" in
  let ran := execSync (EmbeddedJupyterView.nbconvert_command filePath output)
                      (EmbeddedJupyterView.files v) in
  Obsidian.extension file = "ipynb" ->
  ran.1 = Some error
  \/ (ran.1 = None /\ ran.2 !! read_html_path = None
      /\ error = EmbeddedJupyterView.ReadFailed read_html_path) ->
  exists v',
    EmbeddedJupyterView.onLoadFile join execSync parse file v
    = (EmbeddedJupyterView.Returned tt, v')
    /\ EmbeddedJupyterView.children v' = EmbeddedJupyterView.children v
    /\ EmbeddedJupyterView.files v' = ran.2
    /\ EmbeddedJupyterView.console v'
       = EmbeddedJupyterView.ErrorDisplaying error
         :: EmbeddedJupyterView.ErrorFailedToConvert error
         :: EmbeddedJupyterView.LogString read_html_path
         :: EmbeddedJupyterView.LogString output
         :: EmbeddedJupyterView.LogFile file
         :: EmbeddedJupyterView.LogString filePath
         :: EmbeddedJupyterView.console v.
Proof.
  intros filePath output read_html_path ran Hext Hfail.
  subst filePath output read_html_path ran.
  view_steps. rewrite Hext. change ("ipynb" =? "ipynb")%string with true.
  cbv iota. view_fields. revert Hfail.
  destruct (execSync _ _) as [[e|] fs]; view_fields.
  - intros [[= ->] | (? & _)]; [|discriminate].
    eexists. split; [reflexivity|]. repeat split.
  - intros [? | (_ & Hread & ->)]; [discriminate|]. rewrite Hread.
    eexists. split; [reflexivity|]. repeat split.
Qed.

Lemma onLoadFile_failed_conversion_witness :
  exists v',
    EmbeddedJupyterView.onLoadFile SampleView.join SampleView.converter_fails
      SampleView.parse SampleView.notebook SampleView.view
    = (EmbeddedJupyterView.Returned tt, v')
    /\ EmbeddedJupyterView.children v' = ["<p>before</p>"].
Proof.
  destruct (onLoadFile_failed_conversion SampleView.join
              SampleView.converter_fails SampleView.parse
              SampleView.notebook SampleView.view
              (EmbeddedJupyterView.ProcessFailed "exit status 1"))
    as (v' & Hrun & Hchildren & _).
  - reflexivity.
  - left. reflexivity.
  - exists v'. split; [exact Hrun | exact Hchildren].
Defined.

(** X22. When the conversion of a notebook succeeds, [onLoadFile] adds
    exactly one child at the end of the view's container and keeps the
    children that were there: the view is never emptied, so loading
    again adds a further child. The new child holds the parsed page; if
    the parser throws, it stays empty and the error is written to the
    console. *)
Theorem onLoadFile_appends_a_child
    (join : string -> string -> string)
    (execSync : string -> gmap string string
                -> option EmbeddedJupyterView.Thrown * gmap string string)
    (parse : string -> EmbeddedJupyterView.Outcome string)
    (file : Obsidian.TFile) (v : EmbeddedJupyterView.View)
    (html : string) :
  let filePath :=
    EmbeddedJupyterView.basePath v +:+ "/" +:+ Obsidian.path file in
  let output := join (EmbeddedJupyterView.basePath v +:+ "/.obsidian/cache/")
                     (Obsidian.basename file +:+ ".html") in
  let read_html_path :=
    "/.obsidian/cache/" +:+ Obsidian.basename file +:+ ".html" in
  let ran := execSync (EmbeddedJupyterView.nbconvert_command filePath output)
                      (EmbeddedJupyterView.files v) in
  Obsidian.extension file = "ipynb" ->
  ran.1 = None ->
  ran.2 !! read_html_path = Some html ->
  exists v',
    EmbeddedJupyterView.onLoadFile join execSync parse file v
    = (EmbeddedJupyterView.Returned tt, v')
    /\ EmbeddedJupyterView.files v' = ran.2
    /\ EmbeddedJupyterView.children v'
       = EmbeddedJupyterView.children v
         ++ [match parse html with
             | EmbeddedJupyterView.Returned text => text
             | EmbeddedJupyterView.Raised _ => ""
             end]
    /\ EmbeddedJupyterView.console v'
       = match parse html with
         | EmbeddedJupyterView.Returned _ => []
         | EmbeddedJupyterView.Raised error =>
             [EmbeddedJupyterView.ErrorDisplaying error]
         end
         ++ EmbeddedJupyterView.LogString read_html_path
         :: EmbeddedJupyterView.LogString output
         :: EmbeddedJupyterView.LogFile file
         :: EmbeddedJupyterView.LogString filePath
         :: EmbeddedJupyterView.console v.
Proof.
  intros filePath output read_html_path ran Hext Hrun Hread.
  subst filePath output read_html_path ran.
  view_steps. rewrite Hext. change ("ipynb" =? "ipynb")%string with true.
  cbv iota. view_fields. revert Hrun Hread.
  destruct (execSync _ _) as [[e|] fs]; view_fields; [discriminate|].
  intros _ ->. view_fields.
  destruct (parse html) as [text|error]; view_fields.
  - eexists. split; [reflexivity|]. view_fields.
    split; [reflexivity|]. split; [|reflexivity].
    rewrite insert_app_r_alt by lia. now rewrite Nat.sub_diag.
  - eexists. split; [reflexivity|]. view_fields.
    repeat split.
Qed.

Lemma onLoadFile_appends_a_child_witness :
  exists v',
    EmbeddedJupyterView.onLoadFile SampleView.join SampleView.converter_ok
      SampleView.parse SampleView.notebook SampleView.view
    = (EmbeddedJupyterView.Returned tt, v')
    /\ EmbeddedJupyterView.children v' = ["<p>before</p>"; "<p>cells</p>"].
Proof.
  destruct (onLoadFile_appends_a_child SampleView.join
              SampleView.converter_ok SampleView.parse
              SampleView.notebook SampleView.view "<p>cells</p>")
    as (v' & Hrun & _ & Hchildren & _).
  - reflexivity.
  - reflexivity.
  - reflexivity.
  - exists v'. split; [exact Hrun | exact Hchildren].
Defined.

(** ** Relative paths under [fromRelative] and repeated [append] *)

(** Appending a directory segment to a directory of the vault. *)
Lemma append_directory_segment np (x : JupyterAbstractPath) (r c : string) :
  JupyterAbstractPath.isFolder x = true ->
  JupyterAbstractPath.getRelativePath x = Some r ->
  JS.startsWith c "/" = false ->
  exists y,
    JupyterAbstractPath.append np x c true = Ok y
    /\ JupyterAbstractPath.isFolder y = true
    /\ JupyterAbstractPath.getRelativePath y
       = Some (if JS.endsWith (r +:+ c) "/" then r +:+ c
               else (r +:+ c) +:+ "/").
Proof.
  intros Hd Hr Hc.
  assert (isInVault x = true /\ relativePath x = Some r) as [Hv Hx].
  { unfold JupyterAbstractPath.getRelativePath in Hr.
    destruct (isInVault x); [auto | discriminate]. }
  rewrite append_unfold by assumption. rewrite Hc. cbv zeta.
  unfold JupyterAbstractPath.inVault. rewrite Hv, Hx.
  unfold JupyterAbstractPath.constructor,
    JupyterAbstractPath.getRelativePath. simpl.
  eexists. split; [reflexivity|]. simpl. split; [reflexivity|].
  now destruct (JS.endsWith (r +:+ c) "/").
Qed.

(** X23. The relative path under repeated [append], whatever the host:
    for a directory of the vault and two segments [p] and [q] that do
    not start with a separator, [p] not empty and not ending with one,
    appending [p] as a directory and then [q] gives the same relative
    path as appending [p/q] at once, when the last step asks for a
    directory, or for a file with [q] not empty and not ending with a
    separator. *)
Theorem append_twice_relative np (x : JupyterAbstractPath) (r p q : string)
    (isDir2 : bool) :
  JupyterAbstractPath.isFolder x = true ->
  JupyterAbstractPath.getRelativePath x = Some r ->
  JS.startsWith p "/" = false -> p <> "" -> JS.endsWith p "/" = false ->
  JS.startsWith q "/" = false ->
  (isDir2 = false -> q <> "" /\ JS.endsWith q "/" = false) ->
  exists y z d,
    JupyterAbstractPath.append np x p true = Ok y
    /\ JupyterAbstractPath.append np y q isDir2 = Ok z
    /\ JupyterAbstractPath.append np x (p +:+ "/" +:+ q) isDir2 = Ok d
    /\ JupyterAbstractPath.getRelativePath z
       = JupyterAbstractPath.getRelativePath d
    /\ (isDir2 = false ->
        JupyterAbstractPath.getRelativePath z
        = Some (r +:+ p +:+ "/" +:+ q)).
Proof.
  intros Hd Hr Hp Hpne Hpe Hq Hfile.
  destruct (append_directory_segment np x r p Hd Hr Hp)
    as (y & Hy & Hdy & Hry).
  rewrite (endsWith_app_nonempty r p Hpne), Hpe in Hry.
  assert (JS.startsWith (p +:+ "/" +:+ q) "/" = false) as Hpq.
  { destruct p as [|c0 p0]; [contradiction|].
    now rewrite startsWith_app_nonempty. }
  destruct isDir2.
  - destruct (append_directory_segment np y _ q Hdy Hry Hq)
      as (z & Hz & _ & Hrz).
    destruct (append_directory_segment np x r _ Hd Hr Hpq)
      as (d & Hd' & _ & Hrd).
    exists y, z, d. repeat (split; [assumption|]).
    split; [|discriminate].
    rewrite Hrz, Hrd. now rewrite !string_app_assoc.
  - destruct (Hfile eq_refl) as [Hqne Hqe].
    destruct (append_file_segment np y _ q Hdy Hry Hq Hqne Hqe)
      as (z & Hz & Hrz).
    assert (p +:+ "/" +:+ q <> "") as Hne
      by (destruct p; [contradiction | discriminate]).
    assert (JS.endsWith (p +:+ "/" +:+ q) "/" = false) as He.
    { rewrite <- string_app_assoc.
      now rewrite (endsWith_app_nonempty _ q Hqne). }
    destruct (append_file_segment np x r _ Hd Hr Hpq Hne He)
      as (d & Hd' & Hrd).
    exists y, z, d. repeat (split; [assumption|]).
    rewrite Hrz, Hrd, !string_app_assoc. auto.
Qed.

Lemma append_twice_relative_witness :
  JupyterAbstractPath.getRelativePath Sample.notes_folder = Some "Notes/"
  /\ exists y z d,
       JupyterAbstractPath.append HostModel.normalizePath
         Sample.notes_folder "2024" true = Ok y
       /\ JupyterAbstractPath.append HostModel.normalizePath
            y "Log.ipynb" false = Ok z
       /\ JupyterAbstractPath.append HostModel.normalizePath
            Sample.notes_folder ("2024" +:+ "/" +:+ "Log.ipynb") false
          = Ok d
       /\ JupyterAbstractPath.getRelativePath z
          = JupyterAbstractPath.getRelativePath d.
Proof.
  split; [reflexivity|].
  destruct (append_twice_relative HostModel.normalizePath
              Sample.notes_folder "Notes/" "2024" "Log.ipynb" false)
    as (y & z & d & H1 & H2 & H3 & H4 & _);
    try reflexivity; try discriminate.
  - intros _. split; [discriminate | reflexivity].
  - exists y, z, d. auto.
Defined.

(** X24. What [fromRelative] makes of the relative path, whatever the
    host: one leading separator is dropped and nothing else is
    normalized; a directory gets a separator at the end unless it has
    one, and a file keeps the path as it is when the path does not end
    with a separator. *)
Theorem fromRelative_relative_path np (relative : string)
    (isFolder_ : bool) (root : string) :
  let r := if JS.startsWith relative "/"
           then JS.substring_from relative 1 else relative in
  exists x,
    JupyterAbstractPath.fromRelative np relative isFolder_
      {| adapter := FileSystemAdapter root |} = Ok x
    /\ (forall rest, relative = "/" +:+ rest -> r = rest)
    /\ (JS.startsWith relative "/" = false -> r = relative)
    /\ (isFolder_ = true ->
        JupyterAbstractPath.getRelativePath x
        = Some (if JS.endsWith r "/" then r else r +:+ "/"))
    /\ (isFolder_ = false -> JS.endsWith r "/" = false ->
        JupyterAbstractPath.getRelativePath x = Some r).
Proof.
  intros r. rewrite fromRelative_unfold. fold r.
  unfold JupyterAbstractPath.constructor,
    JupyterAbstractPath.getRelativePath. simpl.
  eexists. split; [reflexivity|]. simpl. split; [|split; [|split]].
  - intros rest ->. unfold r.
    change (String "/" rest) with ("/" +:+ rest).
    assert (JS.startsWith ("/" +:+ rest) "/" = true) as ->
      by (apply startsWith_iff; eauto).
    apply substring_from_separator.
  - intros H. unfold r. now rewrite H.
  - intros ->. simpl. now destruct (JS.endsWith r "/").
  - intros -> ->. reflexivity.
Qed.
